(** * Website status checker: the bulk domain-checking engine of [app.py]

    A shallow embedding of the URL normaliser [format_url], the status
    classifier [get_status_message], the prober [check_website_status], the
    two request handlers [check_single_domain] and [check_bulk_domains] and
    the upload handler [upload_file], followed by the properties of the
    engine.

    Python values are modelled as follows.
    - [str] is a sequence of Unicode code points, [list N]: slicing
      ([str(e)[:50]]) and [strip] count code points, not bytes.
    - [int] is [Z]; [float] is the IEEE binary64 type [PrimFloat.float].
    - The literal dict [messages] is a [gmap Z (list N)].
    - The network and the clock are an abstract [world] threaded through a
      state-and-exception monad; every outgoing request is also appended to
      a log, so that "no probe was made" and "one probe per entry, in
      order" can be stated. *)

From Stdlib Require Import ZArith NArith List String Ascii PrimFloat Lia.
From stdpp Require Import base option list gmap.

Local Open Scope Z_scope.

(** ** Python strings *)

Abbreviation pystr := (list N).

(** An ASCII literal of the source, as code points. *)
Definition lit (s : string) : pystr :=
  map N_of_ascii (list_ascii_of_string s).

(** [s.startswith(p)] for one prefix [p]. *)
Fixpoint startswith (s p : pystr) {struct p} : bool :=
  match p, s with
  | [], _ => true
  | _ :: _, [] => false
  | c :: p', d :: s' => if N.eqb c d then startswith s' p' else false
  end.

(** [s.startswith((p1, p2, ...))]: true when some member of the tuple is a
    prefix of [s]. *)
Definition startswith_any (s : pystr) (ps : list pystr) : bool :=
  existsb (startswith s) ps.

(** [str.isspace] on one code point: the table of CPython's
    [_PyUnicode_IsWhitespace]. *)
Definition isspace (c : N) : bool :=
  ((0x09 <=? c) && (c <=? 0x0D) ||
   (0x1C <=? c) && (c <=? 0x20) ||
   (c =? 0x85) || (c =? 0xA0) || (c =? 0x1680) ||
   (0x2000 <=? c) && (c <=? 0x200A) ||
   (c =? 0x2028) || (c =? 0x2029) || (c =? 0x202F) ||
   (c =? 0x205F) || (c =? 0x3000))%N.

(** [s.lstrip()], [s.rstrip()] and [s.strip()] without argument. *)
Fixpoint lstrip (s : pystr) : pystr :=
  match s with
  | [] => []
  | c :: s' => if isspace c then lstrip s' else s
  end.

Definition rstrip (s : pystr) : pystr := rev (lstrip (rev s)).

Definition strip (s : pystr) : pystr := rstrip (lstrip s).

(** Truth value of a string: [if s:] holds when [s] is not empty. *)
Definition truthy_str (s : pystr) : bool :=
  match s with [] => false | _ :: _ => true end.

(** ** Configuration *)

Definition TIMEOUT : Z := 10.
Definition MAX_WORKERS : Z := 10.

(** ** URL normaliser *)

Definition format_url (domain : pystr) : pystr :=
  if negb (startswith_any domain [lit "http://"; lit "https://"])
  then lit "https://" ++ domain
  else domain.

(** ** Status classifier *)

(** The pictographs of the messages, as the code points of the source. *)
Definition CHECK_MARK : pystr := [0x2705%N].
Definition ARROW : pystr := [0x2197%N; 0xFE0F%N].
Definition CLIPBOARD : pystr := [0x1F4CB%N].
Definition CROSS_MARK : pystr := [0x274C%N].
Definition LOCK : pystr := [0x1F512%N].
Definition STOPWATCH : pystr := [0x23F1%N; 0xFE0F%N].
Definition WARNING : pystr := [0x26A0%N; 0xFE0F%N].
Definition QUESTION : pystr := [0x2753%N].

Definition messages : gmap Z (list N) :=
  list_to_map
    [ (200, CHECK_MARK ++ lit " Site is Live");
      (201, CHECK_MARK ++ lit " Created");
      (204, CHECK_MARK ++ lit " No Content");
      (301, ARROW ++ lit " Moved Permanently");
      (302, ARROW ++ lit " Found (Redirect)");
      (304, CLIPBOARD ++ lit " Not Modified");
      (400, CROSS_MARK ++ lit " Bad Request");
      (401, LOCK ++ lit " Unauthorized");
      (403, LOCK ++ lit " Access Forbidden");
      (404, CROSS_MARK ++ lit " 404 Not Found");
      (405, CROSS_MARK ++ lit " Method Not Allowed");
      (408, STOPWATCH ++ lit " Request Timeout");
      (429, WARNING ++ lit " Too Many Requests");
      (500, WARNING ++ lit " Internal Server Error");
      (502, WARNING ++ lit " Bad Gateway");
      (503, WARNING ++ lit " Service Unavailable");
      (504, WARNING ++ lit " Gateway Timeout") ].

Definition get_status_message (status_code : Z) : pystr :=
  match messages !! status_code with
  | Some m => m
  | None =>
      if (200 <=? status_code) && (status_code <? 300) then
        CHECK_MARK ++ lit " Success"
      else if (300 <=? status_code) && (status_code <? 400) then
        ARROW ++ lit " Redirect"
      else if (400 <=? status_code) && (status_code <? 500) then
        CROSS_MARK ++ lit " Client Error"
      else if (500 <=? status_code) && (status_code <? 600) then
        WARNING ++ lit " Server Error"
      else
        QUESTION ++ lit " Unknown Status"
  end.

(** ** Data model *)

(** The [status] entry of a result holds a Python [int] (the HTTP status
    code) or a Python [str] (['TIMEOUT'], ['CONNECTION_ERROR'], ['ERROR']);
    the summary tells them apart with [isinstance(_, int)]. *)
Inductive int_or_str : Type :=
  | PyInt (n : Z)
  | PyStr (s : pystr).

(** The dict returned by [check_website_status]; [response_time] is a float
    or [None]. *)
Record CheckResult : Type := {
  domain : pystr;
  status : int_or_str;
  message : pystr;
  timestamp : pystr;
  response_time : option float
}.

Record BatchSummary : Type := {
  total : Z;
  active : Z;
  inactive : Z;
  errors : Z;
  redirects : Z
}.

(** JSON values as [request.get_json()] delivers them. *)
#[warnings="-register-all"] Inductive json : Type :=
  | JNull
  | JBool (b : bool)
  | JInt (n : Z)
  | JFloat (f : float)
  | JStr (s : pystr)
  | JList (l : list json)
  | JDict (d : list (pystr * json)).

(** [type(v).__name__], as it appears in an [AttributeError]. *)
Definition type_name (v : json) : pystr :=
  match v with
  | JNull => lit "NoneType"
  | JBool _ => lit "bool"
  | JInt _ => lit "int"
  | JFloat _ => lit "float"
  | JStr _ => lit "str"
  | JList _ => lit "list"
  | JDict _ => lit "dict"
  end.

(** What a handler hands to Flask: [jsonify({'error': msg}), code], or
    [jsonify(result)], or [jsonify({'results': .., 'summary': ..})]. *)
Inductive reply : Type :=
  | ErrorReply (error : pystr) (code : Z)
  | ResultReply (result : CheckResult)
  | BulkReply (results : list CheckResult) (summary : BatchSummary).

(** ** Exceptions, requests and responses *)

(** An instance of Python's [Exception], as far as the handlers of
    [check_website_status] look at it: whether it is an instance of
    [requests.exceptions.Timeout], whether it is an instance of
    [requests.exceptions.ConnectionError] (a [ConnectTimeout] is both), and
    its [str(e)].  Signals that are not instances of [Exception]
    ([KeyboardInterrupt], [SystemExit]) are not failures of a request and
    are outside the model. *)
Record exn : Type := {
  is_Timeout : bool;
  is_ConnectionError : bool;
  str_e : pystr
}.

(** [AttributeError: '<type>' object has no attribute '<name>']. *)
Definition AttributeError (v : json) (name : string) : exn :=
  {| is_Timeout := false;
     is_ConnectionError := false;
     str_e := lit "'" ++ type_name v ++ lit "' object has no attribute '"
              ++ lit name ++ lit "'" |}.

(** The arguments of one [requests.get] call. *)
Record request : Type := {
  req_url : pystr;
  req_timeout : Z;
  req_allow_redirects : bool;
  req_headers : list (pystr * pystr)
}.

(** What the prober reads of a [requests.Response]: [status_code] and
    [elapsed.total_seconds()]. *)
Record response : Type := {
  status_code : Z;
  elapsed_total_seconds : float
}.

Definition USER_AGENT : pystr :=
  lit "Mozilla/5.0 (Windows NT 10.0; Win64; x64) AppleWebKit/537.36 (KHTML, like Gecko) Chrome/91.0.4472.124 Safari/537.36".

Definition TIMESTAMP_FORMAT : pystr := lit "%Y-%m-%d %H:%M:%S".

(** ** Batch summary *)

(** Python's [sum] over a sequence of ints. *)
Definition py_sum (xs : list Z) : Z := fold_left Z.add xs 0.

(** The generator [(1 for r in results if cond(r))]. *)
Definition ones_where {A : Type} (cond : A -> bool) (results : list A) : list Z :=
  map (fun _ => 1) (List.filter cond results).

Definition len {A : Type} (l : list A) : Z := Z.of_nat (length l).

(** [isinstance(r['status'], int) and 200 <= r['status'] < 300] *)
Definition cond_active (r : CheckResult) : bool :=
  match status r with
  | PyInt n => (200 <=? n) && (n <? 300)
  | PyStr _ => false
  end.

(** [isinstance(r['status'], int) and 400 <= r['status'] < 500] *)
Definition cond_inactive (r : CheckResult) : bool :=
  match status r with
  | PyInt n => (400 <=? n) && (n <? 500)
  | PyStr _ => false
  end.

(** [not isinstance(r['status'], int) or r['status'] >= 500] *)
Definition cond_errors (r : CheckResult) : bool :=
  match status r with
  | PyInt n => n >=? 500
  | PyStr _ => true
  end.

(** [isinstance(r['status'], int) and 300 <= r['status'] < 400] *)
Definition cond_redirects (r : CheckResult) : bool :=
  match status r with
  | PyInt n => (300 <=? n) && (n <? 400)
  | PyStr _ => false
  end.

Definition summarize (results : list CheckResult) : BatchSummary :=
  {| total := len results;
     active := py_sum (ones_where cond_active results);
     inactive := py_sum (ones_where cond_inactive results);
     errors := py_sum (ones_where cond_errors results);
     redirects := py_sum (ones_where cond_redirects results) |}.

(** ** The world: network, clock and the monad of the handlers *)

Section Engine.

(** The state of everything outside the process.  [network] answers one
    [requests.get] call: a response, or an exception raised by the call.
    [clock] is [datetime.now().strftime(fmt)]. *)
Variable world : Type.
Variable network : request -> world -> (exn + response) * world.
Variable clock : pystr -> world -> pystr * world.

(** The world together with the log of the requests sent so far. *)
Record state : Type := {
  env : world;
  sent : list request
}.

(** A computation that reads and changes the state and either returns a
    value or raises an exception. *)
Definition M (A : Type) : Type := state -> (exn + A) * state.

Definition ret {A : Type} (a : A) : M A := fun st => (inr a, st).

Definition raise {A : Type} (e : exn) : M A := fun st => (inl e, st).

Definition bind {A B : Type} (m : M A) (k : A -> M B) : M B :=
  fun st =>
    match m st with
    | (inr a, st') => k a st'
    | (inl e, st') => (inl e, st')
    end.

(** [try: body  except ...: handler e]: the handler runs in the state the
    body left behind. *)
Definition try_except {A : Type} (body : M A) (handler : exn -> M A) : M A :=
  fun st =>
    match body st with
    | (inr a, st') => (inr a, st')
    | (inl e, st') => handler e st'
    end.

Notation "'do' x <- m ; k" := (bind m (fun x => k))
  (at level 10, x name, m at level 100, k at level 200).

Definition requests_get (url : pystr) (timeout : Z) (allow_redirects : bool)
    (headers : list (pystr * pystr)) : M response :=
  fun st =>
    let req := {| req_url := url; req_timeout := timeout;
                  req_allow_redirects := allow_redirects;
                  req_headers := headers |} in
    let (r, w) := network req (env st) in
    (r, {| env := w; sent := sent st ++ [req] |}).

Definition datetime_now_strftime (fmt : pystr) : M pystr :=
  fun st =>
    let (t, w) := clock fmt (env st) in
    (inr t, {| env := w; sent := sent st |}).

(** [v.strip()] on a JSON value: only [str] has the method. *)
Definition method_strip (v : json) : M pystr :=
  match v with
  | JStr s => ret (strip s)
  | _ => raise (AttributeError v "strip")
  end.

(** ** Domain prober *)

Definition check_website_status (url : pystr) : M CheckResult :=
  try_except
    (let formatted_url := format_url url in
     do resp <- requests_get formatted_url TIMEOUT true
                  [(lit "User-Agent", USER_AGENT)];
     let status_code := status_code resp in
     let message := get_status_message status_code in
     do now <- datetime_now_strftime TIMESTAMP_FORMAT;
     ret {| domain := url;
            status := PyInt status_code;
            message := message;
            timestamp := now;
            response_time := Some (elapsed_total_seconds resp) |})
    (fun e =>
       if is_Timeout e then
         do now <- datetime_now_strftime TIMESTAMP_FORMAT;
         ret {| domain := url;
                status := PyStr (lit "TIMEOUT");
                message := STOPWATCH ++ lit " Request Timeout";
                timestamp := now;
                response_time := None |}
       else if is_ConnectionError e then
         do now <- datetime_now_strftime TIMESTAMP_FORMAT;
         ret {| domain := url;
                status := PyStr (lit "CONNECTION_ERROR");
                message := CROSS_MARK ++ lit " Connection Failed";
                timestamp := now;
                response_time := None |}
       else
         do now <- datetime_now_strftime TIMESTAMP_FORMAT;
         ret {| domain := url;
                status := PyStr (lit "ERROR");
                message := CROSS_MARK ++ lit " Error: " ++ take 50 (str_e e);
                timestamp := now;
                response_time := None |}).

(** ** Request handlers *)

(** The body of a request, [data = request.get_json()]: [None], or a JSON
    object as a finite map from keys to values.  Bodies that are another
    kind of JSON value are not modelled. *)
Definition falsy_body (data : option (gmap (list N) json)) : bool :=
  match data with
  | None => true
  | Some d => bool_decide (d = ∅)
  end.

(** The test [not data or 'domain' not in data] fails in three ways, no
    body, an empty object and a missing key, with one reply for all. *)
Definition check_single_domain (data : option (gmap (list N) json)) : M reply :=
  match data with
  | None => ret (ErrorReply (lit "Domain is required") 400)
  | Some d =>
      if falsy_body data then ret (ErrorReply (lit "Domain is required") 400)
      else
        match d !! lit "domain" with
        | None => ret (ErrorReply (lit "Domain is required") 400)
        | Some v =>
            do domain <- method_strip v;
            if negb (truthy_str domain) then
              ret (ErrorReply (lit "Domain cannot be empty") 400)
            else
              do result <- check_website_status domain;
              ret (ResultReply result)
        end
  end.

(** The loop [for domain in domains: ...] of the bulk handler, with the
    list [results] built so far. *)
Fixpoint for_domain_in (domains : list json) (results : list CheckResult)
    : M (list CheckResult) :=
  match domains with
  | [] => ret results
  | domain :: rest =>
      do stripped <- method_strip domain;
      if truthy_str stripped then
        do arg <- method_strip domain;
        do result <- check_website_status arg;
        for_domain_in rest (results ++ [result])
      else
        for_domain_in rest results
  end.

Definition check_bulk_domains (data : option (gmap (list N) json)) : M reply :=
  match data with
  | None => ret (ErrorReply (lit "Domains list is required") 400)
  | Some d =>
      if falsy_body data then
        ret (ErrorReply (lit "Domains list is required") 400)
      else
        match d !! lit "domains" with
        | None => ret (ErrorReply (lit "Domains list is required") 400)
        | Some (JList domains) =>
            if len domains =? 0 then
              ret (ErrorReply (lit "At least one domain is required") 400)
            else if len domains >? 100 then
              ret (ErrorReply (lit "Maximum 100 domains allowed") 400)
            else
              do results <- for_domain_in domains [];
              let summary := summarize results in
              ret (BulkReply results summary)
        | Some _ => ret (ErrorReply (lit "Domains must be a list") 400)
        end
  end.

End Engine.

Arguments state world : clear implicits.
Arguments Build_state {world} env sent.
Arguments env {world} s.
Arguments sent {world} s.
Arguments M world A : clear implicits.
Arguments ret {world A} a st.
Arguments raise {world A} e st.
Arguments bind {world A B} m k st.
Arguments try_except {world A} body handler st.
Arguments requests_get {world} network url timeout allow_redirects headers st.
Arguments datetime_now_strftime {world} clock fmt st.
Arguments method_strip {world} v.
Arguments check_website_status {world} network clock url.
Arguments check_single_domain {world} network clock data.
Arguments for_domain_in {world} network clock domains results.
Arguments check_bulk_domains {world} network clock data.

(** The request [check_website_status url] sends. *)
Definition probe_request (url : pystr) : request :=
  {| req_url := format_url url;
     req_timeout := TIMEOUT;
     req_allow_redirects := true;
     req_headers := [(lit "User-Agent", USER_AGENT)] |}.

(** ** Vocabulary of the specification *)

(** Number of elements of a sequence that satisfy a condition. *)
Definition count_where {A : Type} (P : A -> bool) (l : list A) : Z :=
  Z.of_nat (length (List.filter P l)).

(** The status is numeric and lies in [[lo, hi)]. *)
Definition numeric_in (lo hi : Z) (r : CheckResult) : bool :=
  match status r with
  | PyInt n => bool_decide (lo <= n < hi)
  | PyStr _ => false
  end.

(** The status is not numeric, or it is numeric and at least 500. *)
Definition non_numeric_or_ge_500 (r : CheckResult) : bool :=
  match status r with
  | PyInt n => bool_decide (500 <= n)
  | PyStr _ => true
  end.

(** The status is numeric and below 200. *)
Definition numeric_below_200 (r : CheckResult) : bool :=
  match status r with
  | PyInt n => bool_decide (n < 200)
  | PyStr _ => false
  end.

(** The codes of the fixed table of the classifier. *)
Definition well_known_codes : list Z :=
  [200; 201; 204; 301; 302; 304; 400; 401; 403; 404; 405; 408; 429;
   500; 502; 503; 504].

(** The three sentinel statuses. *)
Definition sentinels : list int_or_str :=
  [PyStr (lit "TIMEOUT"); PyStr (lit "CONNECTION_ERROR"); PyStr (lit "ERROR")].

(** A string that is empty or consists of whitespace only. *)
Definition blank (s : pystr) : bool := forallb isspace s.

(** The entries of a bulk request that are probed: the non-blank ones,
    trimmed, in the order of the request. *)
Definition probed_entries (entries : list pystr) : list pystr :=
  map strip (List.filter (fun s => negb (blank s)) entries).

(** A string with no whitespace at either end. *)
Definition trimmed (s : pystr) : bool :=
  match s with [] => true | c :: _ => negb (isspace c) end &&
  match rev s with [] => true | c :: _ => negb (isspace c) end.

(** The prober run once per string, from the first to the last, each run
    starting in the state the previous one left. *)
Fixpoint probe_each {world : Type}
    (network : request -> world -> (exn + response) * world)
    (clock : pystr -> world -> pystr * world)
    (urls : list pystr) : M world (list CheckResult) :=
  match urls with
  | [] => ret []
  | url :: rest =>
      bind (check_website_status network clock url) (fun r =>
      bind (probe_each network clock rest) (fun rs =>
      ret (r :: rs)))
  end.

(** A request body [{"domain": v}] and a request body [{"domains": v}]. *)
Definition single_body (v : json) : option (gmap (list N) json) :=
  Some {[ lit "domain" := v ]}.

Definition bulk_body (v : json) : option (gmap (list N) json) :=
  Some {[ lit "domains" := v ]}.

(** ** File upload

    [upload_file] reads a spreadsheet with pandas and returns the cleaned
    list of candidate domains.  pandas and the uploaded file are outside
    the repository: the file, the data frame and the operations the handler
    calls on them are parameters, each of which may raise.  [str.lower] is
    Unicode case mapping and is a parameter too. *)

(** [s.endswith(p)] and [s.endswith((p1, p2, ...))]. *)
Definition endswith (s p : pystr) : bool := startswith (rev s) (rev p).

Definition endswith_any (s : pystr) (ps : list pystr) : bool :=
  existsb (endswith s) ps.

(** [c in s] for a string [c] of one character. *)
Definition contains_char (c : N) (s : pystr) : bool := existsb (N.eqb c) s.

(** A column label of a data frame: a [str], or a value of another type
    (a number or a date read from a header cell), known by the name of its
    type. *)
Inductive label : Type :=
  | LabelStr (s : pystr)
  | LabelOther (type : pystr).

(** What [upload_file] hands to Flask: an error and its status code, or
    [{'domains': .., 'total_found': ..}]. *)
Inductive upload_reply : Type :=
  | UploadError (error : pystr) (code : Z)
  | UploadReply (domains : list pystr) (total_found : Z).

Definition domain_columns : list pystr :=
  [lit "domain"; lit "url"; lit "website"; lit "site"; lit "domains"; lit "urls"].

(** The loop [for domain in domains: ...] that cleans the extracted
    strings, with the list [cleaned_domains] built so far. *)
Fixpoint clean_loop (domains : list pystr) (cleaned_domains : list pystr)
    : list pystr :=
  match domains with
  | [] => cleaned_domains
  | domain :: rest =>
      let domain := strip domain in
      if truthy_str domain && contains_char 46%N domain
         && negb (startswith domain (lit "#"))
      then clean_loop rest (cleaned_domains ++ [domain])
      else clean_loop rest cleaned_domains
  end.

(** The end of the [try] block: clean, refuse an empty list, cut at 100. *)
Definition clean_and_reply (domains : list pystr) : upload_reply :=
  let cleaned_domains := clean_loop domains [] in
  match cleaned_domains with
  | [] => UploadError (lit "No valid domains found in the file") 400
  | _ :: _ => UploadReply (take 100 cleaned_domains) (len cleaned_domains)
  end.

Section Upload.

Variable file : Type.
Variable dataframe : Type.
Variable file_filename : file -> pystr.
Variable str_lower : pystr -> pystr.
Variable pd_read_csv : file -> exn + dataframe.
Variable pd_read_excel : file -> exn + dataframe.
Variable df_columns : dataframe -> list label.
(** [df[col].dropna().astype(str).tolist()] *)
Variable df_column_tolist : dataframe -> label -> exn + list pystr.
(** [df.iloc[:, 0].dropna().astype(str).tolist()] *)
Variable df_first_column_tolist : dataframe -> exn + list pystr.

(** The loop [for col in df.columns: ...] with its [break]: the first
    label whose lower-cased, trimmed text is one of [domain_columns];
    [col.lower()] raises on a label that is not a string. *)
Fixpoint find_domain_column (cols : list label) : exn + option label :=
  match cols with
  | [] => inr None
  | col :: rest =>
      match col with
      | LabelStr s =>
          if bool_decide (strip (str_lower s) ∈ domain_columns)
          then inr (Some col)
          else find_domain_column rest
      | LabelOther type =>
          inl {| is_Timeout := false; is_ConnectionError := false;
                 str_e := lit "'" ++ type
                          ++ lit "' object has no attribute 'lower'" |}
      end
  end.

(** [if domain_column:], the truth value of [None] or of a label. *)
Definition truthy_column (domain_column : option label) : bool :=
  match domain_column with
  | Some (LabelStr s) => truthy_str s
  | Some (LabelOther _) => true
  | None => false
  end.

(** The text shared by the CSV branch and the Excel branch after the file
    is read: choose the column and list its values. *)
Definition column_values (df : dataframe) : exn + list pystr :=
  match find_domain_column (df_columns df) with
  | inl e => inl e
  | inr domain_column =>
      match domain_column with
      | Some col =>
          if truthy_column domain_column then df_column_tolist df col
          else df_first_column_tolist df
      | None => df_first_column_tolist df
      end
  end.

(** The body of the [try] block of [upload_file]. *)
Definition upload_try (f : file) : exn + upload_reply :=
  let filename := str_lower (file_filename f) in
  if endswith filename (lit ".csv") then
    match pd_read_csv f with
    | inl e => inl e
    | inr df =>
        match column_values df with
        | inl e => inl e
        | inr domains => inr (clean_and_reply domains)
        end
    end
  else if endswith_any filename [lit ".xlsx"; lit ".xls"] then
    match pd_read_excel f with
    | inl e => inl e
    | inr df =>
        match column_values df with
        | inl e => inl e
        | inr domains => inr (clean_and_reply domains)
        end
    end
  else
    inr (UploadError
           (lit "Unsupported file format. Please use CSV or Excel files.") 400).

(** [files] is [None] when ['file' not in request.files], and otherwise
    [request.files['file']]. *)
Definition upload_file (files : option file) : exn + upload_reply :=
  match files with
  | None => inr (UploadError (lit "No file uploaded") 400)
  | Some f =>
      if bool_decide (file_filename f = []) then
        inr (UploadError (lit "No file selected") 400)
      else
        match upload_try f with
        | inr reply => inr reply
        | inl e =>
            inr (UploadError (lit "Error processing file: " ++ str_e e) 500)
        end
  end.

End Upload.

Arguments column_values {dataframe} str_lower df_columns df_column_tolist
  df_first_column_tolist df.
Arguments upload_try {file dataframe} file_filename str_lower pd_read_csv
  pd_read_excel df_columns df_column_tolist df_first_column_tolist f.
Arguments upload_file {file dataframe} file_filename str_lower pd_read_csv
  pd_read_excel df_columns df_column_tolist df_first_column_tolist files.

(** A candidate that the cleaning loop keeps, once trimmed. *)
Definition kept (domain : pystr) : bool :=
  truthy_str domain && contains_char 46%N domain
  && negb (startswith domain (lit "#")).

(** ** A concrete world

    A small network used to run the engine on concrete inputs: the world
    counts the clock readings, three hosts fail in the three ways the
    prober distinguishes, one host answers 404 and every other URL answers
    200 after a quarter of a second. *)
Module Demo.

Definition long_description : pystr :=
  lit "Invalid URL 'https://odd.test': the label is empty or too long to be resolved".

Definition network (req : request) (w : nat) : (exn + response) * nat :=
  if bool_decide (req_url req = lit "https://slow.test") then
    (inl {| is_Timeout := true; is_ConnectionError := false;
            str_e := lit "Read timed out." |}, w)
  else if bool_decide (req_url req = lit "https://down.test") then
    (inl {| is_Timeout := false; is_ConnectionError := true;
            str_e := lit "Connection refused" |}, w)
  else if bool_decide (req_url req = lit "https://odd.test") then
    (inl {| is_Timeout := false; is_ConnectionError := false;
            str_e := long_description |}, w)
  else if bool_decide (req_url req = lit "https://gone.test") then
    (inr {| status_code := 404; elapsed_total_seconds := 0.125%float |}, w)
  else
    (inr {| status_code := 200; elapsed_total_seconds := 0.25%float |}, w).

Definition clock (fmt : pystr) (w : nat) : pystr * nat :=
  (lit "2024-01-01 00:00:0" ++ [(48 + N.of_nat (w mod 10))%N], S w).

Definition start : state nat := {| env := 0%nat; sent := [] |}.

Definition result_with (st : int_or_str) : CheckResult :=
  {| domain := lit "example.com";
     status := st;
     message := [];
     timestamp := lit "2024-01-01 00:00:00";
     response_time := None |}.

End Demo.

(** A concrete spreadsheet reader: a file is its name and its table, one
    labelled list of cells per column; [lower] maps the letters A-Z. *)
Module DemoUpload.

Record file : Type := {
  name : pystr;
  table : list (label * list pystr)
}.

Definition lower (s : pystr) : pystr :=
  map (fun c => if ((65 <=? c) && (c <=? 90))%N then (c + 32)%N else c) s.

Definition read (f : file) : exn + list (label * list pystr) := inr (table f).

Definition columns (df : list (label * list pystr)) : list label := map fst df.

Definition IndexError : exn :=
  {| is_Timeout := false; is_ConnectionError := false;
     str_e := lit "single positional indexer is out-of-bounds" |}.

Definition first_column (df : list (label * list pystr)) : exn + list pystr :=
  match df with
  | [] => inl IndexError
  | (_, cells) :: _ => inr cells
  end.

Fixpoint column (df : list (label * list pystr)) (col : label)
    : exn + list pystr :=
  match df, col with
  | [], _ => inl IndexError
  | (LabelStr s, cells) :: rest, LabelStr s' =>
      if bool_decide (s = s') then inr cells else column rest col
  | _ :: rest, _ => column rest col
  end.

Definition upload (files : option file) : exn + upload_reply :=
  upload_file name lower read read columns column first_column files.

Definition sites : file :=
  {| name := lit "Sites.CSV";
     table := [ (LabelStr (lit "id"), [lit "1"; lit "2"; lit "3"; lit "4"]);
                (LabelStr (lit " URL "),
                 [lit " a.com "; lit "# note"; lit "localhost"; lit "b.org"]) ] |}.

Definition empty_csv : file := {| name := lit "empty.csv"; table := [] |}.

Definition notes_txt : file :=
  {| name := lit "notes.txt";
     table := [ (LabelStr (lit "domain"), [lit "a.com"]) ] |}.

End DemoUpload.

Example demo_upload :
  DemoUpload.upload (Some DemoUpload.sites)
  = inr (UploadReply [lit "a.com"; lit "b.org"] 2).
Proof. vm_compute. reflexivity. Qed.

Example format_url_bare : format_url (lit "example.com") = lit "https://example.com".
Proof. reflexivity. Qed.

Example get_status_message_408 :
  get_status_message 408 = STOPWATCH ++ lit " Request Timeout".
Proof. vm_compute. reflexivity. Qed.

Example demo_probe_slow :
  fst (check_website_status Demo.network Demo.clock (lit "slow.test") Demo.start)
  = inr {| domain := lit "slow.test";
           status := PyStr (lit "TIMEOUT");
           message := STOPWATCH ++ lit " Request Timeout";
           timestamp := lit "2024-01-01 00:00:00";
           response_time := None |}.
Proof. vm_compute. reflexivity. Qed.

Example demo_bulk :
  fst (check_bulk_domains Demo.network Demo.clock
         (bulk_body (JList [JStr (lit " a.com "); JStr (lit "  "); JStr (lit "gone.test")]))
         Demo.start)
  = inr (BulkReply
           [ {| domain := lit "a.com"; status := PyInt 200;
                message := CHECK_MARK ++ lit " Site is Live";
                timestamp := lit "2024-01-01 00:00:00";
                response_time := Some 0.25%float |};
             {| domain := lit "gone.test"; status := PyInt 404;
                message := CROSS_MARK ++ lit " 404 Not Found";
                timestamp := lit "2024-01-01 00:00:01";
                response_time := Some 0.125%float |} ]
           {| total := 2; active := 1; inactive := 1; errors := 0; redirects := 0 |}).
Proof. vm_compute. reflexivity. Qed.

(** * Properties *)

(** ** Strings *)

Lemma startswith_prefix (s p : pystr) :
  startswith s p = true <-> p `prefix_of` s.
Proof.
  revert s. induction p as [|c p IH]; intros s; simpl.
  - split; [intros _; apply prefix_nil | reflexivity].
  - destruct s as [|d s].
    + split; [discriminate | intros [k Hk]; discriminate].
    + destruct (N.eqb_spec c d) as [->|Hne].
      * rewrite IH. split.
        -- apply prefix_cons.
        -- intros H. apply (prefix_cons_inv_2 d d). exact H.
      * split; [discriminate |].
        intros H. apply prefix_cons_inv_1 in H. congruence.
Qed.

Lemma startswith_any_prefix (s : pystr) (ps : list pystr) :
  startswith_any s ps = true <-> exists p, p ∈ ps /\ p `prefix_of` s.
Proof.
  unfold startswith_any. rewrite existsb_exists. split.
  - intros (p & Hin & Hp). exists p. split.
    + apply list_elem_of_In. exact Hin.
    + apply startswith_prefix. exact Hp.
  - intros (p & Hin & Hp). exists p. split.
    + apply list_elem_of_In. exact Hin.
    + apply startswith_prefix. exact Hp.
Qed.

Lemma lstrip_nil_blank (s : pystr) : lstrip s = [] <-> blank s = true.
Proof.
  induction s as [|c s IH]; simpl.
  - tauto.
  - destruct (isspace c); simpl.
    + exact IH.
    + split; discriminate.
Qed.

Lemma strip_nil_blank (s : pystr) : strip s = [] <-> blank s = true.
Proof.
  unfold strip, rstrip. split.
  - intros H. apply lstrip_nil_blank.
    destruct (lstrip s) as [|c t] eqn:E; [reflexivity|].
    exfalso.
    assert (Hrev : lstrip (rev (c :: t)) = []).
    { apply (f_equal (@rev N)) in H. rewrite rev_involutive in H. exact H. }
    (* the first character kept by [lstrip] is not a space, and it is the
       last one of the reversed string *)
    assert (Hc : isspace c = false).
    { clear -E. induction s as [|d s IH]; simpl in E; [discriminate|].
      destruct (isspace d) eqn:Ed; [auto | congruence]. }
    apply lstrip_nil_blank in Hrev. unfold blank in Hrev.
    rewrite forallb_forall in Hrev.
    assert (Hin : In c (rev (c :: t))).
    { apply in_rev. rewrite rev_involutive. left. reflexivity. }
    specialize (Hrev c Hin). congruence.
  - intros H. apply lstrip_nil_blank in H. rewrite H. reflexivity.
Qed.

Lemma truthy_strip (s : pystr) : truthy_str (strip s) = negb (blank s).
Proof.
  destruct (blank s) eqn:E.
  - apply strip_nil_blank in E. rewrite E. reflexivity.
  - destruct (strip s) eqn:E'; [|reflexivity].
    apply strip_nil_blank in E'. congruence.
Qed.

Lemma lstrip_head (s : pystr) :
  match s with [] => true | c :: _ => negb (isspace c) end = true ->
  lstrip s = s.
Proof.
  destruct s as [|c s]; [reflexivity|]. simpl.
  destruct (isspace c); [discriminate | reflexivity].
Qed.

Lemma strip_trimmed (s : pystr) : trimmed s = true -> strip s = s.
Proof.
  unfold trimmed. intros H. apply andb_prop in H. destruct H as [Hl Hr].
  unfold strip, rstrip. rewrite (lstrip_head s Hl).
  rewrite (lstrip_head (rev s) Hr). apply rev_involutive.
Qed.

(** ** URL normaliser *)

(** C5. [format_url] returns its argument unchanged when it starts with the
    exact prefix [http://] or [https://], and otherwise returns it with
    [https://] in front; it is a total function of the string alone.  This
    holds for every string, trimmed and non-empty or not. *)
Theorem format_url_spec (domain : pystr) :
  (lit "http://" `prefix_of` domain \/ lit "https://" `prefix_of` domain ->
   format_url domain = domain) /\
  (~ (lit "http://" `prefix_of` domain \/ lit "https://" `prefix_of` domain) ->
   format_url domain = lit "https://" ++ domain).
Proof.
  unfold format_url.
  destruct (startswith_any domain [lit "http://"; lit "https://"]) eqn:E; simpl.
  - split; [reflexivity|].
    intros Hn. exfalso. apply Hn.
    apply startswith_any_prefix in E. destruct E as (p & Hin & Hp).
    apply list_elem_of_In in Hin. simpl in Hin.
    destruct Hin as [<-|[<-|[]]]; [left | right]; exact Hp.
  - split; [|reflexivity].
    intros Hp. exfalso.
    assert (E' : startswith_any domain [lit "http://"; lit "https://"] = true).
    { apply startswith_any_prefix. destruct Hp as [Hp|Hp].
      - exists (lit "http://"). split; [|exact Hp].
        apply list_elem_of_In. left. reflexivity.
      - exists (lit "https://"). split; [|exact Hp].
        apply list_elem_of_In. right. left. reflexivity. }
    congruence.
Qed.

(** The three inputs of the specification, and an upper-case scheme, which
    is not recognised. *)
Example format_url_examples :
  format_url (lit "example.com") = lit "https://example.com" /\
  format_url (lit "http://example.com") = lit "http://example.com" /\
  format_url (lit "https://x.com") = lit "https://x.com" /\
  format_url (lit "HTTP://x.com") = lit "https://HTTP://x.com".
Proof. repeat split. Qed.

Lemma format_url_spec_witness :
  format_url (lit "http://example.com") = lit "http://example.com" /\
  format_url (lit "example.com") = lit "https://" ++ lit "example.com".
Proof.
  split.
  - apply (proj1 (format_url_spec (lit "http://example.com"))).
    left. exists (lit "example.com"). reflexivity.
  - apply (proj2 (format_url_spec (lit "example.com"))).
    intros [H|H]; apply startswith_prefix in H; vm_compute in H; discriminate.
Defined.

(** ** Status classifier *)

Lemma messages_lookup_is_Some (c : Z) :
  is_Some (messages !! c) <-> c ∈ well_known_codes.
Proof.
  split.
  - intros [m Hm].
    destruct (decide (c ∈ well_known_codes)) as [Hin|Hout]; [exact Hin|].
    exfalso.
    assert (Hnone : messages !! c = None).
    { unfold messages. apply not_elem_of_list_to_map_1. exact Hout. }
    congruence.
  - intros Hin. unfold well_known_codes in Hin.
    repeat (apply elem_of_cons in Hin; destruct Hin as [->|Hin];
            [vm_compute; eexists; reflexivity|]).
    apply elem_of_nil in Hin. contradiction.
Qed.

Lemma messages_lookup_None (c : Z) :
  c ∉ well_known_codes -> messages !! c = None.
Proof.
  intros Hout. destruct (messages !! c) eqn:E; [|reflexivity].
  exfalso. apply Hout. apply messages_lookup_is_Some. eexists. exact E.
Qed.

(** C3. The classifier looks the code up in the fixed table of the 17
    well-known codes first and returns the table's message, so 408 gives the
    "Request Timeout" message and not "Client Error"; a code outside the
    table is classified by range only: [200,300) Success, [300,400)
    Redirect, [400,500) Client Error, [500,600) Server Error, anything else
    Unknown Status; 299, 599 and 999 are instances. *)
Theorem get_status_message_spec (c : Z) :
  (c ∈ well_known_codes <-> is_Some (messages !! c)) /\
  (forall m, messages !! c = Some m -> get_status_message c = m) /\
  (c ∉ well_known_codes ->
     (200 <= c < 300 -> get_status_message c = CHECK_MARK ++ lit " Success") /\
     (300 <= c < 400 -> get_status_message c = ARROW ++ lit " Redirect") /\
     (400 <= c < 500 -> get_status_message c = CROSS_MARK ++ lit " Client Error") /\
     (500 <= c < 600 -> get_status_message c = WARNING ++ lit " Server Error") /\
     (c < 200 \/ 600 <= c -> get_status_message c = QUESTION ++ lit " Unknown Status")) /\
  get_status_message 408 = STOPWATCH ++ lit " Request Timeout" /\
  get_status_message 408 <> CROSS_MARK ++ lit " Client Error" /\
  get_status_message 299 = CHECK_MARK ++ lit " Success" /\
  get_status_message 599 = WARNING ++ lit " Server Error" /\
  get_status_message 999 = QUESTION ++ lit " Unknown Status".
Proof.
  split; [symmetry; apply messages_lookup_is_Some|].
  split; [intros m Hm; unfold get_status_message; rewrite Hm; reflexivity|].
  split.
  - intros Hout. unfold get_status_message.
    rewrite (messages_lookup_None c Hout).
    repeat split; intros Hc.
    + replace (200 <=? c) with true by lia.
      replace (c <? 300) with true by lia. reflexivity.
    + replace (200 <=? c) with true by lia.
      replace (c <? 300) with false by lia.
      replace (300 <=? c) with true by lia.
      replace (c <? 400) with true by lia. reflexivity.
    + replace (200 <=? c) with true by lia.
      replace (c <? 300) with false by lia.
      replace (300 <=? c) with true by lia.
      replace (c <? 400) with false by lia.
      replace (400 <=? c) with true by lia.
      replace (c <? 500) with true by lia. reflexivity.
    + replace (200 <=? c) with true by lia.
      replace (c <? 300) with false by lia.
      replace (300 <=? c) with true by lia.
      replace (c <? 400) with false by lia.
      replace (400 <=? c) with true by lia.
      replace (c <? 500) with false by lia.
      replace (500 <=? c) with true by lia.
      replace (c <? 600) with true by lia. reflexivity.
    + destruct Hc as [Hc|Hc].
      * replace (200 <=? c) with false by lia.
        replace (300 <=? c) with false by lia.
        replace (400 <=? c) with false by lia.
        replace (500 <=? c) with false by lia. reflexivity.
      * replace (200 <=? c) with true by lia.
        replace (c <? 300) with false by lia.
        replace (300 <=? c) with true by lia.
        replace (c <? 400) with false by lia.
        replace (400 <=? c) with true by lia.
        replace (c <? 500) with false by lia.
        replace (500 <=? c) with true by lia.
        replace (c <? 600) with false by lia. reflexivity.
  - repeat split; try (vm_compute; reflexivity).
    vm_compute. discriminate.
Qed.

(** Every entry of the table, as the source has it. *)
Example get_status_message_table :
  map get_status_message well_known_codes =
  [ CHECK_MARK ++ lit " Site is Live"; CHECK_MARK ++ lit " Created";
    CHECK_MARK ++ lit " No Content"; ARROW ++ lit " Moved Permanently";
    ARROW ++ lit " Found (Redirect)"; CLIPBOARD ++ lit " Not Modified";
    CROSS_MARK ++ lit " Bad Request"; LOCK ++ lit " Unauthorized";
    LOCK ++ lit " Access Forbidden"; CROSS_MARK ++ lit " 404 Not Found";
    CROSS_MARK ++ lit " Method Not Allowed"; STOPWATCH ++ lit " Request Timeout";
    WARNING ++ lit " Too Many Requests"; WARNING ++ lit " Internal Server Error";
    WARNING ++ lit " Bad Gateway"; WARNING ++ lit " Service Unavailable";
    WARNING ++ lit " Gateway Timeout" ].
Proof. vm_compute. reflexivity. Qed.

Lemma get_status_message_spec_witness :
  get_status_message 404 = CROSS_MARK ++ lit " 404 Not Found" /\
  get_status_message 418 = CROSS_MARK ++ lit " Client Error".
Proof.
  split.
  - apply (proj1 (proj2 (get_status_message_spec 404))).
    vm_compute. reflexivity.
  - apply (proj1 (proj2 (proj2 (get_status_message_spec 418)))).
    + unfold well_known_codes. intros H.
      repeat (apply elem_of_cons in H; destruct H as [H|H]; [discriminate H|]).
      apply elem_of_nil in H. exact H.
    + lia.
Defined.

(** ** Batch summary *)

Lemma py_sum_ones {A : Type} (cond : A -> bool) (l : list A) :
  py_sum (ones_where cond l) = count_where cond l.
Proof.
  unfold py_sum, ones_where, count_where.
  assert (Hacc : forall (xs : list A) (acc : Z),
             fold_left Z.add (map (fun _ => 1) xs) acc = acc + Z.of_nat (length xs)).
  { induction xs as [|x xs IH]; intros acc; simpl fold_left.
    - simpl. lia.
    - rewrite IH. simpl length. lia. }
  rewrite Hacc. lia.
Qed.

Lemma count_where_ext {A : Type} (P Q : A -> bool) (l : list A) :
  (forall x, P x = Q x) -> count_where P l = count_where Q l.
Proof.
  intros H. unfold count_where. f_equal. f_equal.
  apply List.filter_ext. exact H.
Qed.

Lemma count_where_cons {A : Type} (P : A -> bool) (x : A) (l : list A) :
  count_where P (x :: l) = (if P x then 1 else 0) + count_where P l.
Proof.
  unfold count_where. simpl. destruct (P x); simpl length; lia.
Qed.

Lemma count_where_nonneg {A : Type} (P : A -> bool) (l : list A) :
  0 <= count_where P l.
Proof. unfold count_where. lia. Qed.

Lemma cond_active_numeric r : cond_active r = numeric_in 200 300 r.
Proof.
  unfold cond_active, numeric_in. destruct (status r) as [n|s]; [|reflexivity].
  destruct (bool_decide_reflect (200 <= n < 300)); lia.
Qed.

Lemma cond_redirects_numeric r : cond_redirects r = numeric_in 300 400 r.
Proof.
  unfold cond_redirects, numeric_in. destruct (status r) as [n|s]; [|reflexivity].
  destruct (bool_decide_reflect (300 <= n < 400)); lia.
Qed.

Lemma cond_inactive_numeric r : cond_inactive r = numeric_in 400 500 r.
Proof.
  unfold cond_inactive, numeric_in. destruct (status r) as [n|s]; [|reflexivity].
  destruct (bool_decide_reflect (400 <= n < 500)); lia.
Qed.

Lemma cond_errors_numeric r : cond_errors r = non_numeric_or_ge_500 r.
Proof.
  unfold cond_errors, non_numeric_or_ge_500.
  destruct (status r) as [n|s]; [|reflexivity].
  destruct (bool_decide_reflect (500 <= n)); lia.
Qed.

(** The summary in the vocabulary of the specification. *)
Lemma summarize_counts (results : list CheckResult) :
  summarize results =
  {| total := Z.of_nat (length results);
     active := count_where (numeric_in 200 300) results;
     inactive := count_where (numeric_in 400 500) results;
     errors := count_where non_numeric_or_ge_500 results;
     redirects := count_where (numeric_in 300 400) results |}.
Proof.
  unfold summarize, len. rewrite !py_sum_ones.
  rewrite (count_where_ext _ _ results cond_active_numeric).
  rewrite (count_where_ext _ _ results cond_inactive_numeric).
  rewrite (count_where_ext _ _ results cond_errors_numeric).
  rewrite (count_where_ext _ _ results cond_redirects_numeric).
  reflexivity.
Qed.

(** Every result falls in exactly one of five classes: the four of the
    summary and the numeric statuses below 200. *)
Lemma summary_classes (results : list CheckResult) :
  count_where (numeric_in 200 300) results
  + count_where (numeric_in 300 400) results
  + count_where (numeric_in 400 500) results
  + count_where non_numeric_or_ge_500 results
  + count_where numeric_below_200 results
  = Z.of_nat (length results).
Proof.
  induction results as [|r results IH]; [reflexivity|].
  rewrite !count_where_cons. simpl length.
  assert (Hr : (if numeric_in 200 300 r then 1 else 0)
               + (if numeric_in 300 400 r then 1 else 0)
               + (if numeric_in 400 500 r then 1 else 0)
               + (if non_numeric_or_ge_500 r then 1 else 0)
               + (if numeric_below_200 r then 1 else 0) = 1).
  { unfold numeric_in, non_numeric_or_ge_500, numeric_below_200.
    destruct (status r) as [n|s]; [|reflexivity].
    repeat case_bool_decide; lia. }
  lia.
Qed.

(** C2. The summary counts what the specification says: [total] all
    results, [active] the numeric statuses in [200,300), [redirects] those
    in [300,400), [inactive] those in [400,500), [errors] the non-numeric
    statuses and the numeric ones from 500 up; results with the statuses
    200, 404, 301, 500 and "TIMEOUT" give total 5, active 1, inactive 1,
    redirects 1, errors 2. *)
Theorem summarize_spec (results : list CheckResult) :
  total (summarize results) = Z.of_nat (length results) /\
  active (summarize results) = count_where (numeric_in 200 300) results /\
  redirects (summarize results) = count_where (numeric_in 300 400) results /\
  inactive (summarize results) = count_where (numeric_in 400 500) results /\
  errors (summarize results) = count_where non_numeric_or_ge_500 results /\
  (map status results
     = [PyInt 200; PyInt 404; PyInt 301; PyInt 500; PyStr (lit "TIMEOUT")] ->
   summarize results
     = {| total := 5; active := 1; inactive := 1; errors := 2; redirects := 1 |}).
Proof.
  rewrite summarize_counts. simpl.
  repeat (split; [reflexivity|]).
  intros Hst.
  destruct results as [|r1 [|r2 [|r3 [|r4 [|r5 [|r6 rest]]]]]]; try discriminate Hst.
  injection Hst as H1 H2 H3 H4 H5.
  unfold count_where, numeric_in, non_numeric_or_ge_500. simpl.
  rewrite H1, H2, H3, H4, H5. reflexivity.
Qed.

Lemma summarize_spec_witness :
  summarize (map Demo.result_with
               [PyInt 200; PyInt 404; PyInt 301; PyInt 500; PyStr (lit "TIMEOUT")])
  = {| total := 5; active := 1; inactive := 1; errors := 2; redirects := 1 |}.
Proof.
  apply (proj2 (proj2 (proj2 (proj2 (proj2 (summarize_spec _)))))).
  reflexivity.
Defined.

(** C9. When a sequence of results contains a numeric status below 200,
    such as 100, the four counts of the summary add up to less than
    [total]: the summary applies its four conditions as they are and has no
    case for such a status. *)
Theorem summary_counts_below_total (results : list CheckResult) :
  (exists r, r ∈ results /\ exists n, status r = PyInt n /\ n < 200) ->
  active (summarize results) + redirects (summarize results)
  + inactive (summarize results) + errors (summarize results)
  < total (summarize results).
Proof.
  intros (r & Hin & n & Hst & Hn).
  rewrite summarize_counts. simpl.
  pose proof (summary_classes results) as Hsum.
  assert (Hpos : 1 <= count_where numeric_below_200 results).
  { clear Hsum. induction results as [|x results IH].
    - apply elem_of_nil in Hin. contradiction.
    - rewrite count_where_cons.
      pose proof (count_where_nonneg numeric_below_200 results) as Hnn.
      apply elem_of_cons in Hin. destruct Hin as [<-|Hin].
      + unfold numeric_below_200 at 1. rewrite Hst.
        rewrite bool_decide_eq_true_2 by exact Hn. lia.
      + specialize (IH Hin). destruct (numeric_below_200 x); lia. }
  lia.
Qed.

Lemma summary_counts_below_total_witness :
  let results := [Demo.result_with (PyInt 200); Demo.result_with (PyInt 100)] in
  summarize results
    = {| total := 2; active := 1; inactive := 0; errors := 0; redirects := 0 |} /\
  active (summarize results) + redirects (summarize results)
  + inactive (summarize results) + errors (summarize results)
  < total (summarize results).
Proof.
  split; [reflexivity|].
  apply summary_counts_below_total.
  exists (Demo.result_with (PyInt 100)). split.
  - apply elem_of_cons. right. apply elem_of_cons. left. reflexivity.
  - exists 100. split; [reflexivity | lia].
Defined.

(** ** Domain prober *)

Section EngineProperties.

Variable world : Type.
Variable network : request -> world -> (exn + response) * world.
Variable clock : pystr -> world -> pystr * world.

(** One run of the prober, step by step: the request goes out and is
    logged, the clock is read once, and the result is built from both. *)
Lemma check_website_status_run (url : pystr) (st : state world) :
  check_website_status network clock url st =
  let (r, w) := network (probe_request url) (env st) in
  let (now, w') := clock TIMESTAMP_FORMAT w in
  (inr match r with
       | inr resp =>
           {| domain := url;
              status := PyInt (status_code resp);
              message := get_status_message (status_code resp);
              timestamp := now;
              response_time := Some (elapsed_total_seconds resp) |}
       | inl e =>
           if is_Timeout e then
             {| domain := url; status := PyStr (lit "TIMEOUT");
                message := STOPWATCH ++ lit " Request Timeout";
                timestamp := now; response_time := None |}
           else if is_ConnectionError e then
             {| domain := url; status := PyStr (lit "CONNECTION_ERROR");
                message := CROSS_MARK ++ lit " Connection Failed";
                timestamp := now; response_time := None |}
           else
             {| domain := url; status := PyStr (lit "ERROR");
                message := CROSS_MARK ++ lit " Error: " ++ take 50 (str_e e);
                timestamp := now; response_time := None |}
       end,
   {| env := w'; sent := sent st ++ [probe_request url] |}).
Proof.
  unfold check_website_status, try_except, bind, requests_get,
    datetime_now_strftime, ret.
  fold (probe_request url).
  destruct (network (probe_request url) (env st)) as [[e|resp] w]; simpl.
  - destruct (is_Timeout e); [|destruct (is_ConnectionError e)];
      simpl; destruct (clock TIMESTAMP_FORMAT w) as [now w']; reflexivity.
  - destruct (clock TIMESTAMP_FORMAT w) as [now w']; reflexivity.
Qed.

(** The prober always returns, echoes its argument and sends exactly one
    request. *)
Lemma check_website_status_returns (url : pystr) (st : state world) :
  exists result st',
    check_website_status network clock url st = (inr result, st') /\
    domain result = url /\
    sent st' = sent st ++ [probe_request url].
Proof.
  rewrite check_website_status_run.
  destruct (network (probe_request url) (env st)) as [[e|resp] w];
    destruct (clock TIMESTAMP_FORMAT w) as [now w'].
  - eexists. eexists. split; [reflexivity|]. split; [|reflexivity].
    destruct (is_Timeout e); [|destruct (is_ConnectionError e)]; reflexivity.
  - eexists. eexists. split; [reflexivity|]. split; reflexivity.
Qed.

(** C1. For every input string the prober returns a result and raises
    nothing.  When the request raises an exception: a timeout gives status
    TIMEOUT; a connection failure (that is not a timeout) gives status
    CONNECTION_ERROR; any other exception gives status ERROR and a message
    that ends with the first 50 characters, at most, of the description of
    the exception; in the three cases [response_time] is [None]. *)
Theorem check_website_status_never_raises (url : pystr) (st : state world) :
  exists result st',
    check_website_status network clock url st = (inr result, st') /\
    forall e w, network (probe_request url) (env st) = (inl e, w) ->
      response_time result = None /\
      (is_Timeout e = true -> status result = PyStr (lit "TIMEOUT")) /\
      (is_Timeout e = false -> is_ConnectionError e = true ->
       status result = PyStr (lit "CONNECTION_ERROR")) /\
      (is_Timeout e = false -> is_ConnectionError e = false ->
       status result = PyStr (lit "ERROR") /\
       message result = CROSS_MARK ++ lit " Error: " ++ take 50 (str_e e) /\
       take 50 (str_e e) `prefix_of` str_e e /\
       (length (take 50 (str_e e)) <= 50)%nat).
Proof.
  rewrite check_website_status_run.
  destruct (network (probe_request url) (env st)) as [[e|resp] w];
    destruct (clock TIMESTAMP_FORMAT w) as [now w'].
  - eexists. eexists. split; [reflexivity|].
    intros e0 w0 Heq. injection Heq as <- <-.
    destruct (is_Timeout e) eqn:Et; [|destruct (is_ConnectionError e) eqn:Ec];
      simpl; repeat split; try reflexivity; try discriminate.
    + apply prefix_take.
    + rewrite length_take. lia.
  - eexists. eexists. split; [reflexivity|].
    intros e0 w0 Heq. discriminate Heq.
Qed.

(** C7. A result of the prober has a [response_time] exactly when its
    status is numeric, and a numeric status is the status code of the
    response the request returned; a result whose status is one of the
    sentinels TIMEOUT, CONNECTION_ERROR and ERROR has no [response_time]. *)
Theorem response_time_iff_numeric (url : pystr) (st st' : state world)
    (result : CheckResult) :
  check_website_status network clock url st = (inr result, st') ->
  (response_time result <> None <-> exists n, status result = PyInt n) /\
  (forall n, status result = PyInt n ->
     exists resp w,
       network (probe_request url) (env st) = (inr resp, w) /\
       status_code resp = n /\
       response_time result = Some (elapsed_total_seconds resp)) /\
  (status result ∈ sentinels -> response_time result = None).
Proof.
  rewrite check_website_status_run.
  destruct (network (probe_request url) (env st)) as [[e|resp] w];
    destruct (clock TIMESTAMP_FORMAT w) as [now w'];
    intros Heq; injection Heq as <- <-.
  - destruct (is_Timeout e); [|destruct (is_ConnectionError e)]; simpl;
      (split;
         [ split; [intros H; contradiction | intros [n Hn]; discriminate]
         | split; [intros n Hn; discriminate | reflexivity] ]).
  - simpl. split; [|split].
    + split; [intros _; eexists; reflexivity | intros _; discriminate].
    + intros n Hn. injection Hn as <-. exists resp, w. repeat split.
    + unfold sentinels. intros Hin.
      repeat (apply elem_of_cons in Hin; destruct Hin as [Hin|Hin];
              [discriminate Hin|]).
      apply elem_of_nil in Hin. contradiction.
Qed.

(** ** Request handlers *)

Lemma probe_each_returns (urls : list pystr) (st : state world) :
  exists results st',
    probe_each network clock urls st = (inr results, st') /\
    map domain results = urls /\
    sent st' = sent st ++ map probe_request urls.
Proof.
  revert st. induction urls as [|url urls IH]; intros st.
  - exists [], st. simpl. rewrite app_nil_r. repeat split.
  - destruct (check_website_status_returns url st) as (r & st1 & Hrun & Hdom & Hsent).
    destruct (IH st1) as (rs & st2 & Hrest & Hdoms & Hsent2).
    exists (r :: rs), st2. simpl. unfold bind at 1. rewrite Hrun.
    unfold bind at 1. rewrite Hrest. split; [reflexivity|]. split.
    + rewrite Hdom, Hdoms. reflexivity.
    + rewrite Hsent2, Hsent, <- app_assoc. reflexivity.
Qed.

(** The loop of the bulk handler over a list of strings: the blank entries
    are passed over, the others are trimmed and probed in order, and the
    results are appended to those collected before. *)
Lemma for_domain_in_run (entries : list pystr) (acc : list CheckResult)
    (st : state world) :
  for_domain_in network clock (map JStr entries) acc st =
  match probe_each network clock (probed_entries entries) st with
  | (inr rs, st') => (inr (acc ++ rs), st')
  | (inl e, st') => (inl e, st')
  end.
Proof.
  revert acc st. induction entries as [|s entries IH]; intros acc st.
  - simpl. unfold ret. rewrite app_nil_r. reflexivity.
  - simpl for_domain_in. unfold bind at 1. simpl method_strip. unfold ret at 1.
    rewrite truthy_strip. unfold probed_entries. simpl List.filter.
    destruct (blank s); cbn [negb]; cbv beta iota.
    + apply IH.
    + destruct (check_website_status_returns (strip s) st) as (r & st1 & Hrun & _).
      cbn [map probe_each]. unfold bind, ret. cbv beta iota.
      rewrite Hrun. cbv beta iota. rewrite IH.
      unfold probed_entries.
      destruct (probe_each network clock
                  (map strip (List.filter (fun s0 => negb (blank s0)) entries)) st1)
        as [[e|rs] st2]; [reflexivity|].
      rewrite <- app_assoc. reflexivity.
Qed.

Lemma falsy_body_lookup (d : gmap (list N) json) (k : pystr) (v : json) :
  d !! k = Some v -> falsy_body (Some d) = false.
Proof.
  intros Hk. unfold falsy_body. apply bool_decide_eq_false_2.
  intros ->. rewrite lookup_empty in Hk. discriminate.
Qed.

(** The bulk handler on a list of strings that passes the size gate. *)
Lemma check_bulk_domains_run (d : gmap (list N) json) (entries : list pystr)
    (st : state world) :
  d !! lit "domains" = Some (JList (map JStr entries)) ->
  (0 < length entries <= 100)%nat ->
  exists results st',
    probe_each network clock (probed_entries entries) st = (inr results, st') /\
    check_bulk_domains network clock (Some d) st
      = (inr (BulkReply results (summarize results)), st').
Proof.
  intros Hk Hlen.
  destruct (probe_each_returns (probed_entries entries) st)
    as (results & st' & Hrun & _).
  exists results, st'. split; [exact Hrun|].
  unfold check_bulk_domains. rewrite (falsy_body_lookup d _ _ Hk), Hk.
  unfold len. rewrite length_map.
  replace (Z.of_nat (length entries) =? 0) with false by lia.
  replace (Z.of_nat (length entries) >? 100) with false by lia.
  unfold bind. rewrite for_domain_in_run, Hrun. reflexivity.
Qed.

Lemma all_strings (domains : list json) :
  (forall v, v ∈ domains -> exists s, v = JStr s) ->
  exists entries, domains = map JStr entries.
Proof.
  induction domains as [|v domains IH]; intros Hall.
  - exists []. reflexivity.
  - destruct (Hall v) as [s ->]; [apply elem_of_cons; left; reflexivity|].
    destruct IH as [entries ->].
    + intros v Hv. apply Hall. apply elem_of_cons. right. exact Hv.
    + exists (s :: entries). reflexivity.
Qed.

(** C4. The bulk handler answers an empty list and a list of more than 100
    entries with an error and leaves the state as it was, so that no
    request has been sent; a list of exactly 100 strings passes and is
    answered with results and a summary. *)
Theorem check_bulk_domains_size_gate (d : gmap (list N) json)
    (domains : list json) (st : state world) :
  d !! lit "domains" = Some (JList domains) ->
  (domains = [] ->
   check_bulk_domains network clock (Some d) st
     = (inr (ErrorReply (lit "At least one domain is required") 400), st)) /\
  ((100 < length domains)%nat ->
   check_bulk_domains network clock (Some d) st
     = (inr (ErrorReply (lit "Maximum 100 domains allowed") 400), st)) /\
  (length domains = 100%nat ->
   (forall v, v ∈ domains -> exists s, v = JStr s) ->
   exists results st',
     check_bulk_domains network clock (Some d) st
       = (inr (BulkReply results (summarize results)), st')).
Proof.
  intros Hk. split; [|split].
  - intros ->. unfold check_bulk_domains.
    rewrite (falsy_body_lookup d _ _ Hk), Hk. reflexivity.
  - intros Hlen. unfold check_bulk_domains.
    rewrite (falsy_body_lookup d _ _ Hk), Hk. unfold len.
    replace (Z.of_nat (length domains) =? 0) with false by lia.
    replace (Z.of_nat (length domains) >? 100) with true by lia.
    reflexivity.
  - intros Hlen Hall. destruct (all_strings domains Hall) as [entries ->].
    rewrite length_map in Hlen.
    destruct (check_bulk_domains_run d entries st Hk) as (results & st' & _ & Hrun);
      [lia|].
    exists results, st'. exact Hrun.
Qed.

(** C6. For a bulk request that passes the size gate, the entries that are
    blank or whitespace-only are skipped and the results are those of
    probing each remaining entry, trimmed, once and in the order of the
    request: one result per remaining entry, one request sent per remaining
    entry, in the same order. *)
Theorem check_bulk_domains_order (d : gmap (list N) json)
    (entries : list pystr) (st : state world) :
  d !! lit "domains" = Some (JList (map JStr entries)) ->
  (0 < length entries <= 100)%nat ->
  exists results st',
    check_bulk_domains network clock (Some d) st
      = (inr (BulkReply results (summarize results)), st') /\
    probe_each network clock (probed_entries entries) st = (inr results, st') /\
    length results = length (List.filter (fun s => negb (blank s)) entries) /\
    map domain results
      = map strip (List.filter (fun s => negb (blank s)) entries) /\
    sent st' = sent st ++
      map probe_request (map strip (List.filter (fun s => negb (blank s)) entries)).
Proof.
  intros Hk Hlen.
  destruct (check_bulk_domains_run d entries st Hk Hlen)
    as (results & st' & Hprobe & Hrun).
  destruct (probe_each_returns (probed_entries entries) st)
    as (results0 & st0 & Hprobe0 & Hdom & Hsent).
  rewrite Hprobe in Hprobe0. injection Hprobe0 as <- <-.
  exists results, st'. repeat split; try assumption.
  apply (f_equal (@length pystr)) in Hdom.
  unfold probed_entries in Hdom. rewrite !length_map in Hdom. exact Hdom.
Qed.

(** C10. A bulk request whose list is not empty, has at most 100 entries
    and holds blank or whitespace-only strings only is not answered with an
    error: the answer has no results and a summary whose five counts are 0,
    and no request is sent. *)
Theorem check_bulk_domains_all_blank (d : gmap (list N) json)
    (entries : list pystr) (st : state world) :
  d !! lit "domains" = Some (JList (map JStr entries)) ->
  (0 < length entries <= 100)%nat ->
  (forall s, s ∈ entries -> blank s = true) ->
  check_bulk_domains network clock (Some d) st
    = (inr (BulkReply []
              {| total := 0; active := 0; inactive := 0;
                 errors := 0; redirects := 0 |}), st).
Proof.
  intros Hk Hlen Hblank.
  destruct (check_bulk_domains_run d entries st Hk Hlen)
    as (results & st' & Hprobe & Hrun).
  assert (Hnone : probed_entries entries = []).
  { unfold probed_entries. clear -Hblank.
    induction entries as [|s entries IH]; [reflexivity|].
    simpl. rewrite (Hblank s) by (apply elem_of_cons; left; reflexivity).
    simpl. apply IH. intros s' Hs'. apply Hblank.
    apply elem_of_cons. right. exact Hs'. }
  rewrite Hnone in Hprobe. simpl in Hprobe. unfold ret in Hprobe.
  injection Hprobe as <- <-. exact Hrun.
Qed.

(** C8 as amended. The prober echoes its argument in [domain] unchanged.
    The handlers trim the input before they probe it: the [domain] of the
    result of a single check is the input without the whitespace at its
    ends, which is the input itself when it has none there, and the
    [domain] fields of a bulk answer are the trimmed non-blank entries; in
    no case is the scheme that [format_url] adds part of it. *)
Theorem domain_field_echo :
  (forall url st, exists result st',
     check_website_status network clock url st = (inr result, st') /\
     domain result = url) /\
  (forall d s st,
     d !! lit "domain" = Some (JStr s) -> blank s = false ->
     exists result st',
       check_single_domain network clock (Some d) st
         = (inr (ResultReply result), st') /\
       domain result = strip s /\
       (trimmed s = true -> domain result = s)) /\
  (forall d entries st,
     d !! lit "domains" = Some (JList (map JStr entries)) ->
     (0 < length entries <= 100)%nat ->
     exists results summary st',
       check_bulk_domains network clock (Some d) st
         = (inr (BulkReply results summary), st') /\
       map domain results = probed_entries entries).
Proof.
  split; [|split].
  - intros url st.
    destruct (check_website_status_returns url st) as (r & st' & Hrun & Hdom & _).
    exists r, st'. split; assumption.
  - intros d s st Hk Hs.
    destruct (check_website_status_returns (strip s) st) as (r & st' & Hrun & Hdom & _).
    exists r, st'. split; [|split].
    + unfold check_single_domain.
      rewrite (falsy_body_lookup d _ _ Hk), Hk.
      unfold bind at 1. simpl method_strip. unfold ret at 1.
      rewrite truthy_strip, Hs. simpl. unfold bind. rewrite Hrun. reflexivity.
    + exact Hdom.
    + intros Ht. rewrite Hdom. apply strip_trimmed. exact Ht.
  - intros d entries st Hk Hlen.
    destruct (check_bulk_domains_run d entries st Hk Hlen)
      as (results & st' & Hprobe & Hrun).
    destruct (probe_each_returns (probed_entries entries) st)
      as (results0 & st0 & Hprobe0 & Hdom & _).
    rewrite Hprobe in Hprobe0. injection Hprobe0 as <- <-.
    exists results, (summarize results), st'. split; assumption.
Qed.

End EngineProperties.

(** ** The engine on the concrete world *)

Lemma check_website_status_never_raises_witness :
  exists result st',
    check_website_status Demo.network Demo.clock (lit "odd.test") Demo.start
      = (inr result, st') /\
    response_time result = None /\
    status result = PyStr (lit "ERROR") /\
    message result
      = CROSS_MARK ++ lit " Error: "
        ++ lit "Invalid URL 'https://odd.test': the label is empty".
Proof.
  destruct (check_website_status_never_raises nat Demo.network Demo.clock
              (lit "odd.test") Demo.start) as (result & st' & Hrun & Hfail).
  exists result, st'. split; [exact Hrun|].
  destruct (Hfail {| is_Timeout := false; is_ConnectionError := false;
                     str_e := Demo.long_description |} 0%nat eq_refl)
    as (Hrt & _ & _ & Herr).
  destruct (Herr eq_refl eq_refl) as (Hst & Hmsg & _).
  split; [exact Hrt|]. split; [exact Hst|]. exact Hmsg.
Defined.

Lemma response_time_iff_numeric_witness :
  let result :=
    {| domain := lit "a.com"; status := PyInt 200;
       message := CHECK_MARK ++ lit " Site is Live";
       timestamp := lit "2024-01-01 00:00:00";
       response_time := Some 0.25%float |} in
  check_website_status Demo.network Demo.clock (lit "a.com") Demo.start
    = (inr result, {| env := 1%nat; sent := [probe_request (lit "a.com")] |}) /\
  (response_time result <> None <-> exists n, status result = PyInt n) /\
  (status result ∈ sentinels -> response_time result = None).
Proof.
  intros result.
  assert (Hrun : check_website_status Demo.network Demo.clock (lit "a.com") Demo.start
                 = (inr result, {| env := 1%nat; sent := [probe_request (lit "a.com")] |})).
  { vm_compute. reflexivity. }
  split; [exact Hrun|].
  destruct (response_time_iff_numeric nat Demo.network Demo.clock _ _ _ _ Hrun)
    as (Hiff & _ & Hsent).
  split; [exact Hiff | exact Hsent].
Defined.

Lemma check_bulk_domains_size_gate_witness :
  check_bulk_domains Demo.network Demo.clock (bulk_body (JList [])) Demo.start
    = (inr (ErrorReply (lit "At least one domain is required") 400), Demo.start) /\
  check_bulk_domains Demo.network Demo.clock
      (bulk_body (JList (repeat (JStr (lit "a.com")) 101))) Demo.start
    = (inr (ErrorReply (lit "Maximum 100 domains allowed") 400), Demo.start) /\
  exists results st',
    check_bulk_domains Demo.network Demo.clock
        (bulk_body (JList (repeat (JStr (lit "a.com")) 100))) Demo.start
      = (inr (BulkReply results (summarize results)), st').
Proof.
  split; [|split].
  - apply (check_bulk_domains_size_gate nat Demo.network Demo.clock
             {[ lit "domains" := JList [] ]} [] Demo.start);
      [apply lookup_singleton_eq | reflexivity].
  - apply (check_bulk_domains_size_gate nat Demo.network Demo.clock
             {[ lit "domains" := JList (repeat (JStr (lit "a.com")) 101) ]}
             (repeat (JStr (lit "a.com")) 101) Demo.start);
      [apply lookup_singleton_eq | rewrite repeat_length; lia].
  - apply (check_bulk_domains_size_gate nat Demo.network Demo.clock
             {[ lit "domains" := JList (repeat (JStr (lit "a.com")) 100) ]}
             (repeat (JStr (lit "a.com")) 100) Demo.start);
      [apply lookup_singleton_eq | apply repeat_length |].
    intros v Hv. apply list_elem_of_In in Hv. apply repeat_spec in Hv.
    exists (lit "a.com"). exact Hv.
Defined.

Lemma check_bulk_domains_order_witness :
  exists results st',
    check_bulk_domains Demo.network Demo.clock
        (bulk_body (JList (map JStr [lit " a.com "; lit "  "; lit "gone.test"])))
        Demo.start
      = (inr (BulkReply results (summarize results)), st') /\
    map domain results = [lit "a.com"; lit "gone.test"] /\
    sent st' = [probe_request (lit "a.com"); probe_request (lit "gone.test")].
Proof.
  destruct (check_bulk_domains_order nat Demo.network Demo.clock
              {[ lit "domains" :=
                   JList (map JStr [lit " a.com "; lit "  "; lit "gone.test"]) ]}
              [lit " a.com "; lit "  "; lit "gone.test"] Demo.start)
    as (results & st' & Hrun & _ & _ & Hdom & Hsent).
  - apply lookup_singleton_eq.
  - simpl. lia.
  - exists results, st'. split; [exact Hrun|]. split; [exact Hdom | exact Hsent].
Defined.

Lemma check_bulk_domains_all_blank_witness :
  check_bulk_domains Demo.network Demo.clock
      (bulk_body (JList (map JStr [lit "  "; []; [0x09%N; 0xA0%N]]))) Demo.start
    = (inr (BulkReply []
              {| total := 0; active := 0; inactive := 0;
                 errors := 0; redirects := 0 |}), Demo.start).
Proof.
  apply (check_bulk_domains_all_blank nat Demo.network Demo.clock
           {[ lit "domains" := JList (map JStr [lit "  "; []; [0x09%N; 0xA0%N]]) ]}
           [lit "  "; []; [0x09%N; 0xA0%N]] Demo.start).
  - apply lookup_singleton_eq.
  - simpl. lia.
  - intros s Hs.
    repeat (apply elem_of_cons in Hs; destruct Hs as [->|Hs]; [reflexivity|]).
    apply elem_of_nil in Hs. contradiction.
Defined.

Lemma domain_field_echo_witness :
  (exists result st',
     check_single_domain Demo.network Demo.clock
         (single_body (JStr (lit "gone.test"))) Demo.start
       = (inr (ResultReply result), st') /\
     domain result = lit "gone.test") /\
  (exists results summary st',
     check_bulk_domains Demo.network Demo.clock
         (bulk_body (JList (map JStr [lit " a.com "; lit "  "]))) Demo.start
       = (inr (BulkReply results summary), st') /\
     map domain results = [lit "a.com"]).
Proof.
  destruct (domain_field_echo nat Demo.network Demo.clock) as (_ & Hsingle & Hbulk).
  split.
  - destruct (Hsingle {[ lit "domain" := JStr (lit "gone.test") ]}
                (lit "gone.test") Demo.start)
      as (result & st' & Hrun & _ & Hdom).
    + apply lookup_singleton_eq.
    + reflexivity.
    + exists result, st'. split; [exact Hrun|]. apply Hdom. reflexivity.
  - destruct (Hbulk {[ lit "domains" := JList (map JStr [lit " a.com "; lit "  "]) ]}
                [lit " a.com "; lit "  "] Demo.start)
      as (results & summary & st' & Hrun & Hdom).
    + apply lookup_singleton_eq.
    + simpl. lia.
    + exists results, summary, st'. split; [exact Hrun | exact Hdom].
Defined.

(** C8 as stated fails: a single check of [" a.com"] returns a result whose
    [domain] is ["a.com"], not the string the caller supplied. *)
Lemma domain_field_echo_counterexample :
  exists result st',
    check_single_domain Demo.network Demo.clock
        (single_body (JStr (lit " a.com"))) Demo.start
      = (inr (ResultReply result), st') /\
    domain result = lit "a.com" /\
    domain result <> lit " a.com".
Proof.
  eexists. eexists. split; [vm_compute; reflexivity|].
  split; [reflexivity | discriminate].
Qed.

(** * Further properties of the engine *)

(** ** Trimming *)

Lemma lstrip_starts_nonspace (s : pystr) :
  match lstrip s with [] => true | c :: _ => negb (isspace c) end = true.
Proof.
  induction s as [|c s IH]; [reflexivity|]. simpl.
  destruct (isspace c) eqn:E; [exact IH|]. rewrite E. reflexivity.
Qed.

Lemma lstrip_snoc_nonspace (s : pystr) (c : N) :
  isspace c = false -> lstrip (s ++ [c]) = lstrip s ++ [c].
Proof.
  intros Hc. induction s as [|d s IH]; simpl.
  - rewrite Hc. reflexivity.
  - destruct (isspace d); [exact IH | reflexivity].
Qed.

Lemma rstrip_cons_nonspace (c : N) (s : pystr) :
  isspace c = false -> rstrip (c :: s) = c :: rstrip s.
Proof.
  intros Hc. unfold rstrip. simpl rev.
  rewrite (lstrip_snoc_nonspace _ _ Hc), rev_app_distr. reflexivity.
Qed.

Lemma trimmed_strip (s : pystr) : trimmed (strip s) = true.
Proof.
  unfold trimmed. apply andb_true_intro. split.
  - unfold strip. pose proof (lstrip_starts_nonspace s) as Hhead.
    destruct (lstrip s) as [|c t]; [reflexivity|].
    apply negb_true_iff in Hhead.
    rewrite (rstrip_cons_nonspace c t Hhead), Hhead. reflexivity.
  - unfold strip, rstrip. rewrite rev_involutive.
    apply lstrip_starts_nonspace.
Qed.

Lemma strip_idempotent (s : pystr) : strip (strip s) = strip s.
Proof. apply strip_trimmed, trimmed_strip. Qed.

Lemma blank_strip (s : pystr) : blank (strip s) = blank s.
Proof.
  destruct (blank s) eqn:E.
  - apply strip_nil_blank in E. rewrite E. reflexivity.
  - destruct (blank (strip s)) eqn:E'; [|reflexivity].
    apply strip_nil_blank in E'. rewrite strip_idempotent in E'.
    apply strip_nil_blank in E'. congruence.
Qed.

(** ** URL normaliser and classifier *)

(** X1. The URL that [format_url] returns always starts with [http://] or
    [https://] and ends with the input; normalising twice is the same as
    normalising once. *)
Theorem format_url_scheme_idempotent (domain : pystr) :
  startswith_any (format_url domain) [lit "http://"; lit "https://"] = true /\
  domain `suffix_of` format_url domain /\
  format_url (format_url domain) = format_url domain.
Proof.
  assert (Hs : startswith_any (format_url domain)
                 [lit "http://"; lit "https://"] = true).
  { unfold format_url.
    destruct (startswith_any domain [lit "http://"; lit "https://"]) eqn:E;
      simpl negb; cbv iota; [exact E|].
    apply startswith_any_prefix. exists (lit "https://"). split.
    - apply elem_of_cons. right. apply elem_of_cons. left. reflexivity.
    - apply prefix_app_r. reflexivity. }
  split; [exact Hs|]. split.
  - unfold format_url.
    destruct (startswith_any domain [lit "http://"; lit "https://"]);
      cbn [negb]; cbv iota.
    + reflexivity.
    + exists (lit "https://"). reflexivity.
  - unfold format_url at 1. rewrite Hs. reflexivity.
Qed.

(** X2. The classifier answers "Unknown Status" for the codes below 200
    and from 600 up, and for no other code. *)
Theorem get_status_message_unknown_iff (c : Z) :
  get_status_message c = QUESTION ++ lit " Unknown Status"
  <-> (c < 200 \/ 600 <= c).
Proof.
  split.
  - intros Hmsg.
    destruct (decide (c < 200 \/ 600 <= c)) as [Hout|Hin]; [exact Hout|].
    exfalso. unfold get_status_message in Hmsg.
    destruct (messages !! c) as [m|] eqn:E.
    + assert (Hc : c ∈ well_known_codes).
      { apply messages_lookup_is_Some. eexists. exact E. }
      subst m. unfold well_known_codes in Hc.
      repeat (apply elem_of_cons in Hc; destruct Hc as [->|Hc];
              [vm_compute in E; discriminate E|]).
      apply elem_of_nil in Hc. exact Hc.
    + destruct ((200 <=? c) && (c <? 300)) eqn:E1; [discriminate Hmsg|].
      destruct ((300 <=? c) && (c <? 400)) eqn:E2; [discriminate Hmsg|].
      destruct ((400 <=? c) && (c <? 500)) eqn:E3; [discriminate Hmsg|].
      destruct ((500 <=? c) && (c <? 600)) eqn:E4; [discriminate Hmsg|].
      lia.
  - intros Hout. unfold get_status_message.
    rewrite messages_lookup_None.
    + replace ((200 <=? c) && (c <? 300)) with false by lia.
      replace ((300 <=? c) && (c <? 400)) with false by lia.
      replace ((400 <=? c) && (c <? 500)) with false by lia.
      replace ((500 <=? c) && (c <? 600)) with false by lia.
      reflexivity.
    + unfold well_known_codes. intros Hc.
      repeat (apply elem_of_cons in Hc; destruct Hc as [->|Hc]; [lia|]).
      apply elem_of_nil in Hc. exact Hc.
Qed.

Lemma get_status_message_unknown_iff_witness :
  get_status_message 100 = QUESTION ++ lit " Unknown Status" /\
  (600 > 200 -> get_status_message 600 = QUESTION ++ lit " Unknown Status").
Proof.
  split.
  - apply (proj2 (get_status_message_unknown_iff 100)). left. lia.
  - intros _. apply (proj2 (get_status_message_unknown_iff 600)). right. lia.
Defined.

(** ** Batch summary *)

(** X3. The four counts of a summary never add up to more than [total],
    and they add up to [total] exactly when no result has a numeric status
    below 200. *)
Theorem summary_counts_sum (results : list CheckResult) :
  active (summarize results) + redirects (summarize results)
  + inactive (summarize results) + errors (summarize results)
  <= total (summarize results) /\
  (active (summarize results) + redirects (summarize results)
   + inactive (summarize results) + errors (summarize results)
   = total (summarize results)
   <-> forall r n, r ∈ results -> status r = PyInt n -> 200 <= n).
Proof.
  rewrite summarize_counts. simpl.
  pose proof (summary_classes results) as Hsum.
  pose proof (count_where_nonneg numeric_below_200 results) as Hnn.
  split; [lia|].
  assert (Hzero : count_where numeric_below_200 results = 0
                  <-> forall r n, r ∈ results -> status r = PyInt n -> 200 <= n).
  { clear Hsum Hnn. induction results as [|x results IH].
    - split; [|reflexivity]. intros _ r n Hin. apply elem_of_nil in Hin. contradiction.
    - rewrite count_where_cons.
      pose proof (count_where_nonneg numeric_below_200 results) as Hnn.
      split.
      + intros H0 r n Hin Hst. apply elem_of_cons in Hin. destruct Hin as [->|Hin].
        * unfold numeric_below_200 in H0 at 1. rewrite Hst in H0.
          case_bool_decide; lia.
        * apply (proj1 IH) with (r := r); [|exact Hin|exact Hst].
          destruct (numeric_below_200 x); lia.
      + intros Hall.
        assert (Hx : numeric_below_200 x = false).
        { unfold numeric_below_200. destruct (status x) as [n|s] eqn:Hst; [|reflexivity].
          apply bool_decide_eq_false_2.
          specialize (Hall x n). rewrite elem_of_cons in Hall.
          specialize (Hall (or_introl eq_refl) Hst). lia. }
        rewrite Hx. rewrite (proj2 IH); [reflexivity|].
        intros r n Hin. apply Hall. apply elem_of_cons. right. exact Hin. }
  rewrite <- Hzero. lia.
Qed.

Lemma summary_counts_sum_witness :
  let results := map Demo.result_with [PyInt 200; PyInt 503; PyStr (lit "ERROR")] in
  active (summarize results) + redirects (summarize results)
  + inactive (summarize results) + errors (summarize results)
  = total (summarize results).
Proof.
  intros results. apply (proj2 (summary_counts_sum results)).
  intros r n Hin Hst. unfold results in Hin. simpl in Hin.
  repeat (apply elem_of_cons in Hin; destruct Hin as [->|Hin];
          [simpl in Hst; first [discriminate Hst | injection Hst as <-; lia]|]).
  apply elem_of_nil in Hin. contradiction.
Defined.

Lemma count_where_app {A : Type} (P : A -> bool) (l1 l2 : list A) :
  count_where P (l1 ++ l2) = count_where P l1 + count_where P l2.
Proof.
  unfold count_where. rewrite List.filter_app, length_app. lia.
Qed.

Lemma count_where_Permutation {A : Type} (P : A -> bool) (l1 l2 : list A) :
  l1 ≡ₚ l2 -> count_where P l1 = count_where P l2.
Proof.
  induction 1 as [|x l1 l2 _ IH|x y l|l1 l2 l3 _ IH1 _ IH2].
  - reflexivity.
  - rewrite !count_where_cons, IH. reflexivity.
  - rewrite !count_where_cons. lia.
  - rewrite IH1. exact IH2.
Qed.

(** X4. The summary of two sequences of results put together is the sum,
    count by count, of their summaries. *)
Theorem summarize_app (results1 results2 : list CheckResult) :
  summarize (results1 ++ results2) =
  {| total := total (summarize results1) + total (summarize results2);
     active := active (summarize results1) + active (summarize results2);
     inactive := inactive (summarize results1) + inactive (summarize results2);
     errors := errors (summarize results1) + errors (summarize results2);
     redirects := redirects (summarize results1) + redirects (summarize results2) |}.
Proof.
  rewrite !summarize_counts. simpl.
  rewrite length_app, !count_where_app. f_equal. lia.
Qed.

(** X5. The summary does not depend on the order of the results. *)
Theorem summarize_Permutation (results1 results2 : list CheckResult) :
  results1 ≡ₚ results2 -> summarize results1 = summarize results2.
Proof.
  intros Hp. rewrite !summarize_counts.
  rewrite (Permutation_length Hp).
  rewrite (count_where_Permutation (numeric_in 200 300) _ _ Hp).
  rewrite (count_where_Permutation (numeric_in 400 500) _ _ Hp).
  rewrite (count_where_Permutation non_numeric_or_ge_500 _ _ Hp).
  rewrite (count_where_Permutation (numeric_in 300 400) _ _ Hp).
  reflexivity.
Qed.

Lemma summarize_Permutation_witness :
  summarize (map Demo.result_with [PyInt 200; PyInt 404])
  = summarize (map Demo.result_with [PyInt 404; PyInt 200]).
Proof.
  apply summarize_Permutation. simpl. apply perm_swap.
Defined.

(** ** Prober and handlers *)

Section MoreEngineProperties.

Variable world : Type.
Variable network : request -> world -> (exn + response) * world.
Variable clock : pystr -> world -> pystr * world.

(** X6. Whatever the outcome, one run of the prober sends exactly one
    request, a GET of the normalised URL with a timeout of 10, redirects
    followed and the browser User-Agent, and then reads the clock once: a
    failed request is not tried again. *)
Theorem check_website_status_one_request (url : pystr) (st : state world) :
  let req := {| req_url := format_url url; req_timeout := 10;
                req_allow_redirects := true;
                req_headers := [(lit "User-Agent", USER_AGENT)] |} in
  exists result st',
    check_website_status network clock url st = (inr result, st') /\
    sent st' = sent st ++ [req] /\
    timestamp result = fst (clock TIMESTAMP_FORMAT (snd (network req (env st)))) /\
    env st' = snd (clock TIMESTAMP_FORMAT (snd (network req (env st)))).
Proof.
  intros req. rewrite check_website_status_run.
  change (probe_request url) with req.
  destruct (network req (env st)) as [[e|resp] w]; simpl snd;
    destruct (clock TIMESTAMP_FORMAT w) as [now w']; simpl.
  - eexists. eexists. split; [reflexivity|]. split; [reflexivity|].
    split; [|reflexivity].
    destruct (is_Timeout e); [|destruct (is_ConnectionError e)]; reflexivity.
  - eexists. eexists. repeat split.
Qed.

(** X7. The status of a result of the prober is a number or one of the
    three sentinels, and the message goes with it: the classifier's message
    for a number, the fixed messages for TIMEOUT and CONNECTION_ERROR, and
    for ERROR a message that starts with the cross mark and "Error:" and is
    at most 59 characters long. *)
Theorem message_of_status (url : pystr) (st st' : state world)
    (result : CheckResult) :
  check_website_status network clock url st = (inr result, st') ->
  ((exists n, status result = PyInt n) \/ status result ∈ sentinels) /\
  (forall n, status result = PyInt n -> message result = get_status_message n) /\
  (status result = PyStr (lit "TIMEOUT") ->
   message result = STOPWATCH ++ lit " Request Timeout") /\
  (status result = PyStr (lit "CONNECTION_ERROR") ->
   message result = CROSS_MARK ++ lit " Connection Failed") /\
  (status result = PyStr (lit "ERROR") ->
   (CROSS_MARK ++ lit " Error: ") `prefix_of` message result /\
   (length (message result) <= 59)%nat).
Proof.
  rewrite check_website_status_run.
  destruct (network (probe_request url) (env st)) as [[e|resp] w];
    destruct (clock TIMESTAMP_FORMAT w) as [now w'];
    intros Heq; injection Heq as <- <-.
  - destruct (is_Timeout e); [|destruct (is_ConnectionError e)]; simpl;
      (split; [right; unfold sentinels; set_solver|]);
      (split; [intros n Hn; discriminate Hn|]);
      (split; [intros H; first [reflexivity | discriminate H]|]);
      (split; [intros H; first [reflexivity | discriminate H]|]);
      intros H; try discriminate H.
    split.
    + exists (take 50 (str_e e)). reflexivity.
    + change (length (CROSS_MARK ++ lit " Error: " ++ take 50 (str_e e)))
        with (S (S (S (S (S (S (S (S (S (length (take 50 (str_e e)))))))))))).
      rewrite length_take. lia.
  - simpl. split; [left; eexists; reflexivity|].
    split; [intros n Hn; injection Hn as <-; reflexivity|].
    split; [intros H; discriminate H|].
    split; intros H; discriminate H.
Qed.


(** X9. A single check whose [domain] is not a string raises the
    [AttributeError] of the call of [strip] and sends no request: the
    handler has no reply for it. *)
Theorem check_single_domain_not_a_string (d : gmap (list N) json) (v : json)
    (st : state world) :
  d !! lit "domain" = Some v ->
  (forall s, v <> JStr s) ->
  check_single_domain network clock (Some d) st
    = (inl (AttributeError v "strip"), st).
Proof.
  intros Hk Hv. unfold check_single_domain.
  rewrite (falsy_body_lookup d _ _ Hk), Hk. unfold bind.
  destruct v; try reflexivity. exfalso. apply (Hv s). reflexivity.
Qed.

(** X10. A single check of a string that is not blank is answered with the
    result of the prober on the trimmed string; a bulk check of the same
    string alone gives that same result and leaves the same state. *)
Theorem check_bulk_domains_singleton (s : pystr) (st : state world) :
  blank s = false ->
  exists result st',
    check_website_status network clock (strip s) st = (inr result, st') /\
    check_single_domain network clock (single_body (JStr s)) st
      = (inr (ResultReply result), st') /\
    check_bulk_domains network clock (bulk_body (JList [JStr s])) st
      = (inr (BulkReply [result] (summarize [result])), st').
Proof.
  intros Hs.
  destruct (check_website_status_returns world network clock (strip s) st)
    as (r & st' & Hrun & _).
  exists r, st'. split; [exact Hrun|]. split.
  - unfold check_single_domain, single_body.
    rewrite (falsy_body_lookup _ (lit "domain") (JStr s)), lookup_singleton_eq
      by apply lookup_singleton_eq.
    unfold bind at 1. simpl method_strip. unfold ret at 1.
    rewrite truthy_strip, Hs. simpl. unfold bind. rewrite Hrun. reflexivity.
  - destruct (check_bulk_domains_run world network clock
                {[ lit "domains" := JList (map JStr [s]) ]} [s] st)
      as (results & st1 & Hprobe & Hbulk).
    + apply lookup_singleton_eq.
    + simpl. lia.
    + unfold probed_entries in Hprobe. simpl in Hprobe. rewrite Hs in Hprobe.
      simpl in Hprobe. unfold bind in Hprobe. rewrite Hrun in Hprobe.
      unfold ret in Hprobe. injection Hprobe as <- <-. exact Hbulk.
Qed.

Lemma probed_entries_length (entries : list pystr) :
  (length (probed_entries entries) <= length entries)%nat.
Proof.
  unfold probed_entries. rewrite length_map. apply List.filter_length_le.
Qed.

Lemma probed_entries_clean (entries : list pystr) (s : pystr) :
  s ∈ probed_entries entries ->
  s <> [] /\ trimmed s = true /\ blank s = false.
Proof.
  unfold probed_entries. intros Hin. apply list_elem_of_In in Hin.
  apply in_map_iff in Hin. destruct Hin as (x & <- & Hx).
  apply filter_In in Hx. destruct Hx as [_ Hx]. apply negb_true_iff in Hx.
  split; [|split].
  - intros Hnil. apply strip_nil_blank in Hnil. congruence.
  - apply trimmed_strip.
  - rewrite blank_strip. exact Hx.
Qed.

Lemma probed_entries_fixed (entries : list pystr) :
  (forall s, s ∈ entries -> trimmed s = true /\ blank s = false) ->
  probed_entries entries = entries.
Proof.
  unfold probed_entries. induction entries as [|s entries IH]; intros Hall.
  - reflexivity.
  - destruct (Hall s) as [Ht Hb]; [apply elem_of_cons; left; reflexivity|].
    simpl. rewrite Hb. simpl. rewrite (strip_trimmed s Ht). f_equal.
    apply IH. intros x Hx. apply Hall. apply elem_of_cons. right. exact Hx.
Qed.

Lemma probed_entries_idempotent (entries : list pystr) :
  probed_entries (probed_entries entries) = probed_entries entries.
Proof.
  apply probed_entries_fixed. intros s Hs.
  destruct (probed_entries_clean entries s Hs) as (_ & Ht & Hb).
  split; assumption.
Qed.

(** The loop of the bulk handler over two lists one after the other. *)
Lemma for_domain_in_app (l1 l2 : list json) (acc : list CheckResult)
    (st : state world) :
  for_domain_in network clock (l1 ++ l2) acc st =
  match for_domain_in network clock l1 acc st with
  | (inr acc', st') => for_domain_in network clock l2 acc' st'
  | (inl e, st') => (inl e, st')
  end.
Proof.
  revert acc st. induction l1 as [|v l1 IH]; intros acc st.
  - reflexivity.
  - destruct v; cbn [app for_domain_in method_strip];
      unfold bind, ret, raise; cbv beta iota; try reflexivity.
    destruct (truthy_str (strip s)); cbv beta iota; [|apply IH].
    destruct (check_website_status network clock (strip s) st) as [[e|r] st1];
      cbv beta iota; [reflexivity | apply IH].
Qed.

(** X11. The [domain] of every result that the single and the bulk
    handler return is not empty and has no whitespace at either end. *)
Theorem handlers_domain_trimmed :
  (forall d s st,
     d !! lit "domain" = Some (JStr s) -> blank s = false ->
     exists result st',
       check_single_domain network clock (Some d) st
         = (inr (ResultReply result), st') /\
       domain result <> [] /\ trimmed (domain result) = true) /\
  (forall d entries st,
     d !! lit "domains" = Some (JList (map JStr entries)) ->
     (0 < length entries <= 100)%nat ->
     exists results st',
       check_bulk_domains network clock (Some d) st
         = (inr (BulkReply results (summarize results)), st') /\
       forall r, r ∈ results ->
         domain r <> [] /\ trimmed (domain r) = true).
Proof.
  split.
  - intros d s st Hk Hs.
    destruct (check_website_status_returns world network clock (strip s) st)
      as (r & st' & Hrun & Hdom & _).
    exists r, st'. split; [|split].
    + unfold check_single_domain.
      rewrite (falsy_body_lookup d _ _ Hk), Hk.
      unfold bind at 1. simpl method_strip. unfold ret at 1.
      rewrite truthy_strip, Hs. simpl. unfold bind. rewrite Hrun. reflexivity.
    + rewrite Hdom. intros Hnil. apply strip_nil_blank in Hnil. congruence.
    + rewrite Hdom. apply trimmed_strip.
  - intros d entries st Hk Hlen.
    destruct (check_bulk_domains_run world network clock d entries st Hk Hlen)
      as (results & st' & Hprobe & Hrun).
    destruct (probe_each_returns world network clock (probed_entries entries) st)
      as (results0 & st0 & Hprobe0 & Hdom & _).
    rewrite Hprobe in Hprobe0. injection Hprobe0 as <- <-.
    exists results, st'. split; [exact Hrun|].
    intros r Hr.
    assert (Hin : domain r ∈ probed_entries entries).
    { rewrite <- Hdom. apply list_elem_of_In. apply in_map.
      apply list_elem_of_In. exact Hr. }
    destruct (probed_entries_clean entries _ Hin) as (Hne & Ht & _).
    split; assumption.
Qed.


(** X13. A bulk list that passes the size gate and holds an entry that is
    not a string makes the handler raise the [AttributeError] of that
    entry: the strings before it have been probed, in order, and their
    results are lost with the reply. *)
Theorem check_bulk_domains_non_string_entry (d : gmap (list N) json)
    (before : list pystr) (v : json) (after : list json) (st : state world) :
  d !! lit "domains" = Some (JList (map JStr before ++ v :: after)) ->
  (forall s, v <> JStr s) ->
  (length before + S (length after) <= 100)%nat ->
  exists results st',
    probe_each network clock (probed_entries before) st = (inr results, st') /\
    check_bulk_domains network clock (Some d) st
      = (inl (AttributeError v "strip"), st') /\
    sent st' = sent st ++ map probe_request (probed_entries before).
Proof.
  intros Hk Hv Hlen.
  destruct (probe_each_returns world network clock (probed_entries before) st)
    as (results & st' & Hprobe & _ & Hsent).
  exists results, st'. split; [exact Hprobe|]. split; [|exact Hsent].
  unfold check_bulk_domains. rewrite (falsy_body_lookup d _ _ Hk), Hk.
  unfold len. rewrite length_app, length_map.
  change (length (v :: after)) with (S (length after)).
  assert (E0 : (Z.of_nat (length before + S (length after)) =? 0) = false)
    by (apply Z.eqb_neq; lia).
  assert (E100 : (Z.of_nat (length before + S (length after)) >? 100) = false)
    by (rewrite Z.gtb_ltb; apply Z.ltb_ge; lia).
  rewrite E0, E100.
  unfold bind. rewrite for_domain_in_app, for_domain_in_run, Hprobe.
  simpl for_domain_in. unfold bind.
  destruct v; try reflexivity. exfalso. apply (Hv s). reflexivity.
Qed.

(** X14. Blank entries and whitespace around entries make no difference to
    a bulk check: the list and the list of its trimmed non-blank entries
    get the same reply and leave the same state, when there is at least
    one non-blank entry. *)
Theorem check_bulk_domains_cleaned_input (d1 d2 : gmap (list N) json)
    (entries : list pystr) (st : state world) :
  d1 !! lit "domains" = Some (JList (map JStr entries)) ->
  d2 !! lit "domains" = Some (JList (map JStr (probed_entries entries))) ->
  (length entries <= 100)%nat ->
  probed_entries entries <> [] ->
  check_bulk_domains network clock (Some d1) st
  = check_bulk_domains network clock (Some d2) st.
Proof.
  intros Hk1 Hk2 Hlen Hne.
  pose proof (probed_entries_length entries) as Hle.
  assert (Hpos : (0 < length (probed_entries entries))%nat).
  { destruct (probed_entries entries); [contradiction | simpl; lia]. }
  destruct (check_bulk_domains_run world network clock d1 entries st Hk1)
    as (r1 & st1 & Hp1 & Hrun1); [lia|].
  destruct (check_bulk_domains_run world network clock d2
              (probed_entries entries) st Hk2)
    as (r2 & st2 & Hp2 & Hrun2); [lia|].
  rewrite probed_entries_idempotent, Hp1 in Hp2. injection Hp2 as <- <-.
  rewrite Hrun1, Hrun2. reflexivity.
Qed.

End MoreEngineProperties.

(** ** File upload *)

Lemma clean_loop_filter (domains cleaned : list pystr) :
  clean_loop domains cleaned = cleaned ++ List.filter kept (map strip domains).
Proof.
  revert cleaned. induction domains as [|d domains IH]; intros cleaned.
  - simpl. rewrite app_nil_r. reflexivity.
  - cbn [clean_loop map List.filter].
    change (truthy_str (strip d) && contains_char 46 (strip d)
            && negb (startswith (strip d) (lit "#"))) with (kept (strip d)).
    destruct (kept (strip d)).
    + rewrite IH, <- app_assoc. reflexivity.
    + apply IH.
Qed.

Lemma kept_clean (d : pystr) :
  kept d = true ->
  d <> [] /\ 46%N ∈ d /\ ~ lit "#" `prefix_of` d.
Proof.
  unfold kept. intros H.
  apply andb_prop in H. destruct H as [H Hhash].
  apply andb_prop in H. destruct H as [Hne Hdot].
  split; [|split].
  - intros ->. discriminate Hne.
  - unfold contains_char in Hdot. apply existsb_exists in Hdot.
    destruct Hdot as (c & Hin & Hc). apply N.eqb_eq in Hc. subst c.
    apply list_elem_of_In. exact Hin.
  - intros Hp. apply startswith_prefix in Hp. rewrite Hp in Hhash.
    discriminate Hhash.
Qed.

(** What the cleaning keeps is trimmed, and cleaning it again keeps it. *)
Lemma cleaned_entry (cells : list pystr) (d : pystr) :
  d ∈ List.filter kept (map strip cells) ->
  kept d = true /\ trimmed d = true.
Proof.
  intros Hin. apply list_elem_of_In in Hin. apply filter_In in Hin.
  destruct Hin as [Hin Hk]. split; [exact Hk|].
  apply in_map_iff in Hin. destruct Hin as (x & <- & _). apply trimmed_strip.
Qed.

Lemma take_elem_of {A : Type} (n : nat) (l : list A) (x : A) :
  x ∈ take n l -> x ∈ l.
Proof.
  intros Hin. rewrite <- (take_drop n l). apply elem_of_app. left. exact Hin.
Qed.

(** A successful reply of [clean_and_reply], read backwards. *)
Lemma clean_and_reply_domains (cells domains : list pystr) (total_found : Z) :
  clean_and_reply cells = UploadReply domains total_found ->
  domains = take 100 (List.filter kept (map strip cells)) /\
  total_found = Z.of_nat (length (List.filter kept (map strip cells))) /\
  List.filter kept (map strip cells) <> [].
Proof.
  unfold clean_and_reply. rewrite clean_loop_filter. simpl app.
  destruct (List.filter kept (map strip cells)) as [|d ds] eqn:E;
    [discriminate|].
  intros Heq. injection Heq as <- <-. repeat split. discriminate.
Qed.

(** X15. Cleaning is idempotent: the cleaning loop of [upload_file] run on
    its own output returns it unchanged. *)
Theorem clean_loop_idempotent (cells : list pystr) :
  clean_loop (clean_loop cells []) [] = clean_loop cells [].
Proof.
  rewrite !clean_loop_filter. simpl app.
  assert (Hfix : forall l : list pystr,
             (forall d, d ∈ l -> kept d = true /\ trimmed d = true) ->
             List.filter kept (map strip l) = l).
  { induction l as [|d l IH]; intros Hall; [reflexivity|].
    destruct (Hall d) as [Hk Ht]; [apply elem_of_cons; left; reflexivity|].
    simpl. rewrite (strip_trimmed d Ht), Hk. f_equal.
    apply IH. intros x Hx. apply Hall. apply elem_of_cons. right. exact Hx. }
  apply Hfix. intros d Hd. apply (cleaned_entry cells). exact Hd.
Qed.

Section UploadProperties.

Variable file : Type.
Variable dataframe : Type.
Variable file_filename : file -> pystr.
Variable str_lower : pystr -> pystr.
Variable pd_read_csv : file -> exn + dataframe.
Variable pd_read_excel : file -> exn + dataframe.
Variable df_columns : dataframe -> list label.
Variable df_column_tolist : dataframe -> label -> exn + list pystr.
Variable df_first_column_tolist : dataframe -> exn + list pystr.

Local Abbreviation upload :=
  (upload_file file_filename str_lower pd_read_csv pd_read_excel df_columns
     df_column_tolist df_first_column_tolist).
Local Abbreviation values :=
  (column_values str_lower df_columns df_column_tolist df_first_column_tolist).

(** A successful upload comes from cleaning the cells of some column. *)
Lemma upload_file_cells (files : option file) (domains : list pystr)
    (total_found : Z) :
  upload files = inr (UploadReply domains total_found) ->
  exists cells, clean_and_reply cells = UploadReply domains total_found.
Proof.
  unfold upload_file, upload_try. destruct files as [f|]; [|discriminate].
  destruct (bool_decide (file_filename f = [])); [discriminate|].
  destruct (endswith (str_lower (file_filename f)) (lit ".csv")).
  - destruct (pd_read_csv f) as [e|df]; [discriminate|].
    destruct (values df) as [e|cells]; [discriminate|].
    intros Heq. injection Heq as Heq. exists cells. exact Heq.
  - destruct (endswith_any (str_lower (file_filename f)) [lit ".xlsx"; lit ".xls"]);
      [|discriminate].
    destruct (pd_read_excel f) as [e|df]; [discriminate|].
    destruct (values df) as [e|cells]; [discriminate|].
    intros Heq. injection Heq as Heq. exists cells. exact Heq.
Qed.

(** X16. [upload_file] never raises: whatever pandas does, the handler
    returns a reply.  When reading a CSV or an Excel file raises, or when
    listing the column of a CSV file raises, the reply is a 500 error whose
    message is "Error processing file: " followed by the whole description
    of the exception. *)
Theorem upload_file_never_raises (files : option file) :
  (exists reply, upload files = inr reply) /\
  (forall f e,
     files = Some f -> file_filename f <> [] ->
     endswith (str_lower (file_filename f)) (lit ".csv") = true ->
     pd_read_csv f = inl e ->
     upload files
       = inr (UploadError (lit "Error processing file: " ++ str_e e) 500)) /\
  (forall f e,
     files = Some f -> file_filename f <> [] ->
     endswith (str_lower (file_filename f)) (lit ".csv") = false ->
     endswith_any (str_lower (file_filename f)) [lit ".xlsx"; lit ".xls"] = true ->
     pd_read_excel f = inl e ->
     upload files
       = inr (UploadError (lit "Error processing file: " ++ str_e e) 500)) /\
  (forall f df e,
     files = Some f -> file_filename f <> [] ->
     endswith (str_lower (file_filename f)) (lit ".csv") = true ->
     pd_read_csv f = inr df -> values df = inl e ->
     upload files
       = inr (UploadError (lit "Error processing file: " ++ str_e e) 500)).
Proof.
  split; [|split; [|split]].
  - unfold upload_file. destruct files as [f|]; [|eexists; reflexivity].
    destruct (bool_decide (file_filename f = [])); [eexists; reflexivity|].
    destruct (upload_try file_filename str_lower pd_read_csv pd_read_excel
                df_columns df_column_tolist df_first_column_tolist f);
      eexists; reflexivity.
  - intros f e -> Hname Hcsv Hread. unfold upload_file, upload_try.
    rewrite bool_decide_eq_false_2 by exact Hname.
    rewrite Hcsv, Hread. reflexivity.
  - intros f e -> Hname Hcsv Hxls Hread. unfold upload_file, upload_try.
    rewrite bool_decide_eq_false_2 by exact Hname.
    rewrite Hcsv, Hxls, Hread. reflexivity.
  - intros f df e -> Hname Hcsv Hread Hval. unfold upload_file, upload_try.
    rewrite bool_decide_eq_false_2 by exact Hname.
    rewrite Hcsv, Hread, Hval. reflexivity.
Qed.

(** X17. A request without a file part, a file with an empty name and a
    file whose lower-cased name ends with none of [.csv], [.xlsx] and
    [.xls] are answered with a 400 error, whatever the file holds. *)
Theorem upload_file_input_errors :
  upload None = inr (UploadError (lit "No file uploaded") 400) /\
  (forall f, file_filename f = [] ->
   upload (Some f) = inr (UploadError (lit "No file selected") 400)) /\
  (forall f, file_filename f <> [] ->
   endswith (str_lower (file_filename f)) (lit ".csv") = false ->
   endswith_any (str_lower (file_filename f)) [lit ".xlsx"; lit ".xls"] = false ->
   upload (Some f)
     = inr (UploadError
              (lit "Unsupported file format. Please use CSV or Excel files.") 400)).
Proof.
  split; [reflexivity|]. split.
  - intros f Hname. unfold upload_file.
    rewrite bool_decide_eq_true_2 by exact Hname. reflexivity.
  - intros f Hname Hcsv Hxls. unfold upload_file, upload_try.
    rewrite bool_decide_eq_false_2 by exact Hname.
    rewrite Hcsv, Hxls. reflexivity.
Qed.


(** X19. Every domain that an upload returns is not empty, has no
    whitespace at either end, contains a dot and does not start with [#]. *)
Theorem upload_file_domains_clean (files : option file) (domains : list pystr)
    (total_found : Z) :
  upload files = inr (UploadReply domains total_found) ->
  forall d, d ∈ domains ->
    d <> [] /\ trimmed d = true /\ 46%N ∈ d /\ ~ lit "#" `prefix_of` d.
Proof.
  intros Hup d Hd. destruct (upload_file_cells _ _ _ Hup) as (cells & Hc).
  destruct (clean_and_reply_domains _ _ _ Hc) as (Hdom & _ & _).
  rewrite Hdom in Hd. apply take_elem_of in Hd.
  destruct (cleaned_entry cells d Hd) as [Hk Ht].
  destruct (kept_clean d Hk) as (Hne & Hdot & Hhash).
  repeat split; assumption.
Qed.

(** X20. The domains that an upload returns can be sent to the bulk check
    as they are: the list passes the size gate, no entry is skipped, and
    the reply has one result per domain, in order, with that domain in its
    [domain] field. *)
Theorem upload_then_bulk (files : option file) (domains : list pystr)
    (total_found : Z) (world : Type)
    (network : request -> world -> (exn + response) * world)
    (clock : pystr -> world -> pystr * world) (st : state world) :
  upload files = inr (UploadReply domains total_found) ->
  exists results st',
    check_bulk_domains network clock (bulk_body (JList (map JStr domains))) st
      = (inr (BulkReply results (summarize results)), st') /\
    map domain results = domains /\
    sent st' = sent st ++ map probe_request domains.
Proof.
  intros Hup.
  destruct (upload_file_cells _ _ _ Hup) as (cells & Hc).
  destruct (clean_and_reply_domains _ _ _ Hc) as (Hdom & _ & Hne).
  assert (Hfix : probed_entries domains = domains).
  { apply probed_entries_fixed. intros s Hs.
    rewrite Hdom in Hs. apply take_elem_of in Hs.
    destruct (cleaned_entry cells s Hs) as [Hk Ht]. split; [exact Ht|].
    destruct (blank s) eqn:Hb; [|reflexivity].
    apply strip_nil_blank in Hb. rewrite (strip_trimmed s Ht) in Hb.
    destruct (kept_clean s Hk) as (Hnil & _). contradiction. }
  assert (Hlen : (0 < length domains <= 100)%nat).
  { rewrite Hdom, length_take.
    destruct (List.filter kept (map strip cells)); [contradiction|].
    simpl length. lia. }
  destruct (check_bulk_domains_run world network clock
              {[ lit "domains" := JList (map JStr domains) ]} domains st)
    as (results & st' & Hprobe & Hrun); [apply lookup_singleton_eq | exact Hlen |].
  destruct (probe_each_returns world network clock (probed_entries domains) st)
    as (results0 & st0 & Hprobe0 & Hd & Hsent).
  rewrite Hprobe in Hprobe0. injection Hprobe0 as <- <-.
  rewrite Hfix in Hd, Hsent.
  exists results, st'. split; [exact Hrun|]. split; assumption.
Qed.

Lemma find_domain_column_skip (pre : list pystr) (rest : list label) :
  (forall x, x ∈ pre -> strip (str_lower x) ∉ domain_columns) ->
  find_domain_column str_lower (map LabelStr pre ++ rest)
  = find_domain_column str_lower rest.
Proof.
  induction pre as [|x pre IH]; intros Hno; [reflexivity|].
  simpl. rewrite bool_decide_eq_false_2.
  - apply IH. intros y Hy. apply Hno. apply elem_of_cons. right. exact Hy.
  - apply Hno. apply elem_of_cons. left. reflexivity.
Qed.

(** X21. The cells are taken from the first column whose header, lower-cased
    and trimmed, is one of [domain], [url], [website], [site], [domains],
    [urls], and from the first column when no header is; a header that is
    not a string and comes before any such column makes the extraction
    raise.  The first part relies on [''.lower()] being ['']. *)
Theorem column_values_choice (df : dataframe) :
  (forall pre s post,
     str_lower [] = [] ->
     df_columns df = map LabelStr pre ++ LabelStr s :: post ->
     (forall x, x ∈ pre -> strip (str_lower x) ∉ domain_columns) ->
     strip (str_lower s) ∈ domain_columns ->
     values df = df_column_tolist df (LabelStr s)) /\
  (forall names,
     df_columns df = map LabelStr names ->
     (forall x, x ∈ names -> strip (str_lower x) ∉ domain_columns) ->
     values df = df_first_column_tolist df) /\
  (forall pre type post,
     df_columns df = map LabelStr pre ++ LabelOther type :: post ->
     (forall x, x ∈ pre -> strip (str_lower x) ∉ domain_columns) ->
     exists e, values df = inl e).
Proof.
  split; [|split].
  - intros pre s post Hlower Hcols Hno Hyes. unfold column_values.
    rewrite Hcols, (find_domain_column_skip pre _ Hno). simpl.
    rewrite bool_decide_eq_true_2 by exact Hyes.
    destruct s as [|c s]; [|reflexivity].
    exfalso. rewrite Hlower in Hyes. vm_compute in Hyes.
    repeat (apply elem_of_cons in Hyes; destruct Hyes as [Hyes|Hyes];
            [discriminate Hyes|]).
    apply elem_of_nil in Hyes. exact Hyes.
  - intros names Hcols Hno. unfold column_values.
    rewrite Hcols, <- (app_nil_r (map LabelStr names)),
      (find_domain_column_skip names _ Hno). reflexivity.
  - intros pre type post Hcols Hno. unfold column_values.
    rewrite Hcols, (find_domain_column_skip pre _ Hno). simpl.
    eexists. reflexivity.
Qed.

End UploadProperties.

(** ** The further properties on the concrete worlds *)

Lemma message_of_status_witness :
  let result :=
    {| domain := lit "odd.test"; status := PyStr (lit "ERROR");
       message := CROSS_MARK ++ lit " Error: "
                  ++ lit "Invalid URL 'https://odd.test': the label is empty";
       timestamp := lit "2024-01-01 00:00:00";
       response_time := None |} in
  (CROSS_MARK ++ lit " Error: ") `prefix_of` message result /\
  (length (message result) <= 59)%nat.
Proof.
  intros result.
  destruct (message_of_status nat Demo.network Demo.clock (lit "odd.test")
              Demo.start {| env := 1%nat; sent := [probe_request (lit "odd.test")] |}
              result) as (_ & _ & _ & _ & Herr).
  - vm_compute. reflexivity.
  - apply Herr. reflexivity.
Defined.


Lemma check_single_domain_not_a_string_witness :
  check_single_domain Demo.network Demo.clock (single_body (JInt 42)) Demo.start
    = (inl {| is_Timeout := false; is_ConnectionError := false;
              str_e := lit "'int' object has no attribute 'strip'" |}, Demo.start).
Proof.
  apply (check_single_domain_not_a_string nat Demo.network Demo.clock
           {[ lit "domain" := JInt 42 ]} (JInt 42) Demo.start).
  - apply lookup_singleton_eq.
  - intros s H. discriminate H.
Defined.

Lemma check_bulk_domains_singleton_witness :
  exists result st',
    check_single_domain Demo.network Demo.clock
        (single_body (JStr (lit " gone.test"))) Demo.start
      = (inr (ResultReply result), st') /\
    check_bulk_domains Demo.network Demo.clock
        (bulk_body (JList [JStr (lit " gone.test")])) Demo.start
      = (inr (BulkReply [result] (summarize [result])), st').
Proof.
  destruct (check_bulk_domains_singleton nat Demo.network Demo.clock
              (lit " gone.test") Demo.start) as (r & st' & _ & Hs & Hb).
  - reflexivity.
  - exists r, st'. split; assumption.
Defined.

Lemma handlers_domain_trimmed_witness :
  exists results st',
    check_bulk_domains Demo.network Demo.clock
        (bulk_body (JList (map JStr [lit " a.com "; lit "  "]))) Demo.start
      = (inr (BulkReply results (summarize results)), st') /\
    forall r, r ∈ results -> domain r <> [] /\ trimmed (domain r) = true.
Proof.
  destruct (handlers_domain_trimmed nat Demo.network Demo.clock) as (_ & Hbulk).
  apply (Hbulk {[ lit "domains" := JList (map JStr [lit " a.com "; lit "  "]) ]}
           [lit " a.com "; lit "  "] Demo.start).
  - apply lookup_singleton_eq.
  - simpl. lia.
Defined.


Lemma check_bulk_domains_non_string_entry_witness :
  exists st',
    check_bulk_domains Demo.network Demo.clock
        (bulk_body (JList (map JStr [lit "a.com"] ++ JNull :: [JStr (lit "b.org")])))
        Demo.start
      = (inl {| is_Timeout := false; is_ConnectionError := false;
                str_e := lit "'NoneType' object has no attribute 'strip'" |}, st') /\
    sent st' = [probe_request (lit "a.com")].
Proof.
  destruct (check_bulk_domains_non_string_entry nat Demo.network Demo.clock
              {[ lit "domains" :=
                   JList (map JStr [lit "a.com"] ++ JNull :: [JStr (lit "b.org")]) ]}
              [lit "a.com"] JNull [JStr (lit "b.org")] Demo.start)
    as (results & st' & _ & Hrun & Hsent).
  - apply lookup_singleton_eq.
  - intros s H. discriminate H.
  - simpl. lia.
  - exists st'. split; [exact Hrun | exact Hsent].
Defined.

Lemma check_bulk_domains_cleaned_input_witness :
  check_bulk_domains Demo.network Demo.clock
      (bulk_body (JList (map JStr [lit " a.com "; lit "  "; lit "gone.test"])))
      Demo.start
  = check_bulk_domains Demo.network Demo.clock
      (bulk_body (JList (map JStr [lit "a.com"; lit "gone.test"]))) Demo.start.
Proof.
  apply (check_bulk_domains_cleaned_input nat Demo.network Demo.clock
           {[ lit "domains" :=
                JList (map JStr [lit " a.com "; lit "  "; lit "gone.test"]) ]}
           {[ lit "domains" := JList (map JStr [lit "a.com"; lit "gone.test"]) ]}
           [lit " a.com "; lit "  "; lit "gone.test"] Demo.start).
  - apply lookup_singleton_eq.
  - apply lookup_singleton_eq.
  - simpl. lia.
  - discriminate.
Defined.

Lemma upload_file_never_raises_witness :
  DemoUpload.upload (Some DemoUpload.empty_csv)
  = inr (UploadError
           (lit "Error processing file: single positional indexer is out-of-bounds")
           500).
Proof.
  apply (proj2 (proj2 (proj2
           (upload_file_never_raises DemoUpload.file _ DemoUpload.name
              DemoUpload.lower DemoUpload.read DemoUpload.read DemoUpload.columns
              DemoUpload.column DemoUpload.first_column
              (Some DemoUpload.empty_csv))))
         DemoUpload.empty_csv [] DemoUpload.IndexError).
  - reflexivity.
  - discriminate.
  - reflexivity.
  - reflexivity.
  - reflexivity.
Defined.

Lemma upload_file_input_errors_witness :
  DemoUpload.upload (Some DemoUpload.notes_txt)
  = inr (UploadError
           (lit "Unsupported file format. Please use CSV or Excel files.") 400).
Proof.
  apply (proj2 (proj2
           (upload_file_input_errors DemoUpload.file _ DemoUpload.name
              DemoUpload.lower DemoUpload.read DemoUpload.read DemoUpload.columns
              DemoUpload.column DemoUpload.first_column))
         DemoUpload.notes_txt).
  - discriminate.
  - reflexivity.
  - reflexivity.
Defined.


Lemma upload_file_domains_clean_witness :
  lit "b.org" <> [] /\ trimmed (lit "b.org") = true /\
  46%N ∈ lit "b.org" /\ ~ lit "#" `prefix_of` lit "b.org".
Proof.
  apply (upload_file_domains_clean DemoUpload.file _ DemoUpload.name
           DemoUpload.lower DemoUpload.read DemoUpload.read DemoUpload.columns
           DemoUpload.column DemoUpload.first_column
           (Some DemoUpload.sites) [lit "a.com"; lit "b.org"] 2).
  - vm_compute. reflexivity.
  - apply elem_of_cons. right. apply elem_of_cons. left. reflexivity.
Defined.

Lemma upload_then_bulk_witness :
  exists results st',
    check_bulk_domains Demo.network Demo.clock
        (bulk_body (JList (map JStr [lit "a.com"; lit "b.org"]))) Demo.start
      = (inr (BulkReply results (summarize results)), st') /\
    map domain results = [lit "a.com"; lit "b.org"] /\
    sent st' = sent Demo.start ++ map probe_request [lit "a.com"; lit "b.org"].
Proof.
  apply (upload_then_bulk DemoUpload.file _ DemoUpload.name
           DemoUpload.lower DemoUpload.read DemoUpload.read DemoUpload.columns
           DemoUpload.column DemoUpload.first_column
           (Some DemoUpload.sites) [lit "a.com"; lit "b.org"] 2
           nat Demo.network Demo.clock Demo.start).
  vm_compute. reflexivity.
Defined.

Lemma column_values_choice_witness :
  column_values DemoUpload.lower DemoUpload.columns DemoUpload.column
    DemoUpload.first_column (DemoUpload.table DemoUpload.sites)
  = inr [lit " a.com "; lit "# note"; lit "localhost"; lit "b.org"].
Proof.
  rewrite (proj1 (column_values_choice _ DemoUpload.lower DemoUpload.columns
                    DemoUpload.column DemoUpload.first_column
                    (DemoUpload.table DemoUpload.sites))
             [lit "id"] (lit " URL ") []).
  - reflexivity.
  - reflexivity.
  - reflexivity.
  - intros x Hx. apply elem_of_cons in Hx. destruct Hx as [->|Hx].
    + vm_compute. intros H.
      repeat (apply elem_of_cons in H; destruct H as [H|H]; [discriminate H|]).
      apply elem_of_nil in H. exact H.
    + apply elem_of_nil in Hx. contradiction.
  - vm_compute. apply elem_of_cons. right. apply elem_of_cons. left. reflexivity.
Defined.
